(** * lpp-vita-project: the gulpfile's build and deploy tasks

    A shallow embedding of [gulpfile.ts].  The synchronous part of the
    script (the [VitaProject] constructor: reading, validating, checking
    files) runs in a state-and-exception monad over an explicit store; the
    stream pipelines ([processPipe], [build]) are pipeline terms with a
    relational semantics; the asynchronous part ([sendCmdAsync],
    [deployPipeAsync], the gulp tasks) is a tree of await points run by a
    small event loop. *)

From stdpp Require Import gmap strings list fin_maps pretty.
From Stdlib Require Import ZArith Lia Ascii.

Set Warnings "-register-all".
Local Open Scope Z_scope.
Local Open Scope string_scope.
Local Open Scope list_scope.

(** ** JavaScript values *)

Module JS.

(** What [JSON.parse] can return.  A string is the sequence of its code
    units (those below 256 here, one [ascii] each); a number holds an
    integer.  [undefined] is the [None] of [option json]. *)
Inductive json : Type :=
| JNull
| JBool (b : bool)
| JNum (z : Z)
| JStr (s : string)
| JArr (l : list json)
| JObj (m : gmap string json).

(** An object is the finite map of its own properties. *)
Abbreviation jsobj := (gmap string json).

(** [v == null]: true of [null] and of [undefined]. *)
Definition nullish (v : option json) : bool :=
  match v with
  | None | Some JNull => true
  | Some _ => false
  end.

(** [a ?? b] *)
Definition coalesce (a b : option json) : option json :=
  if nullish a then b else a.

Infix "??" := coalesce (at level 45, right associativity).

(** The indexed own properties of a string or an array: ["0"], ["1"], ... *)
Definition indexed (l : list json) : jsobj :=
  list_to_map (imap (fun i x => (pretty i, x)) l).

Definition chars (s : string) : list json :=
  (fun c => JStr (String c EmptyString)) <$> String.list_ascii_of_string s.

(** The own enumerable properties that [Object.assign] copies from a
    source: the keys of an object, the indices of an array or of a string,
    nothing for [null], a boolean or a number. *)
Definition own_enumerable (v : json) : jsobj :=
  match v with
  | JObj m => m
  | JArr l => indexed l
  | JStr s => indexed (chars s)
  | JNull | JBool _ | JNum _ => ∅
  end.

(** [v.k] for a value that is not nullish. *)
Definition prop (v : json) (k : string) : option json :=
  match v with
  | JObj m => m !! k
  | JArr l =>
      if decide (k = "length") then Some (JNum (Z.of_nat (length l)))
      else indexed l !! k
  | JStr s =>
      if decide (k = "length") then Some (JNum (Z.of_nat (String.length s)))
      else indexed (chars s) !! k
  | JNull | JBool _ | JNum _ => None
  end.

(** [v?.k]: [undefined] when [v] is nullish. *)
Definition opt_prop (v : option json) (k : string) : option json :=
  match v with
  | None | Some JNull => None
  | Some w => prop w k
  end.

(** [v !== n] for a number literal [n]. *)
Definition strict_ne_num (v : option json) (n : Z) : bool :=
  match v with
  | Some (JNum z) => negb (Z.eqb z n)
  | _ => true
  end.

(** [!v]: true of [undefined], [null], [false], [0] and the empty string. *)
Definition falsy (v : option json) : bool :=
  match v with
  | None | Some JNull | Some (JBool false) | Some (JNum 0) | Some (JStr EmptyString) => true
  | Some _ => false
  end.

(** The values that a template literal or a string concatenation converts
    to plain text: integers that a double holds exactly and prints in
    full, and, at any depth of an array, no object with a [toString] key,
    whose value from a JSON text is never a function, so that the
    conversion of such an object throws a [TypeError]. *)
Fixpoint plain (v : json) : bool :=
  match v with
  | JNull | JBool _ | JStr _ => true
  | JNum z => (Z.abs z <=? 2 ^ 53)%Z
  | JArr l =>
      (fix all (l : list json) : bool :=
         match l with
         | [] => true
         | x :: r => plain x && all r
         end) l
  | JObj m => bool_decide (m !! "toString" = None)
  end.

(** The same for a value that may be [undefined]. *)
Definition convertible (v : option json) : bool :=
  match v with
  | None => true
  | Some w => plain w
  end.

(** String conversion, as a template literal or a string concatenation
    performs it on a [plain] value. *)
Fixpoint toString (v : json) : string :=
  match v with
  | JNull => "null"
  | JBool b => if b then "true" else "false"
  | JNum z => pretty z
  | JStr s => s
  | JArr l =>
      let element x := match x with JNull => EmptyString | _ => toString x end in
      (fix join (l : list json) : string :=
         match l with
         | [] => EmptyString
         | [x] => element x
         | x :: r => element x +:+ "," +:+ join r
         end) l
  | JObj _ => "[object Object]"
  end.

Definition template (v : option json) : string :=
  match v with
  | None => "undefined"
  | Some w => toString w
  end.

End JS.

Import JS.

(** ** The module-level constants *)

(** Where an object looks for the properties it does not have itself:
    in [Object.prototype], as every object literal does at first, nowhere,
    or in a value that was assigned to its [__proto__].  The built-in
    members of [Object.prototype] are functions, which the script never
    reads from a configuration: they are not part of the model. *)
Inductive prototype : Type :=
| ObjectPrototype
| NoPrototype
| Inherits (parent : json).

(** An object: its own properties and its prototype. *)
Record object : Type := Object {
  own : jsobj;
  proto : prototype
}.

(** Objects that the script shares by reference live in a store. *)
Definition loc := nat.
Abbreviation heap := (gmap loc object).

Definition lookup_object (h : heap) (l : loc) : object :=
  default (Object ∅ ObjectPrototype) (h !! l).

(** The own properties of an object in the store. *)
Definition deref (h : heap) (l : loc) : jsobj := own (lookup_object h l).

(** What a prototype contributes to [o.k]. *)
Definition inherited (p : prototype) (k : string) : option json :=
  match p with
  | Inherits parent => prop parent k
  | ObjectPrototype | NoPrototype => None
  end.

(** [o.k]: the own property, else the inherited one.  The script reads
    neither [__proto__] nor a built-in member this way. *)
Definition get (o : object) (k : string) : option json :=
  match own o !! k with
  | Some v => Some v
  | None => inherited (proto o) k
  end.

(** [o.k] for an object in the store. *)
Definition field (h : heap) (l : loc) (k : string) : option json :=
  get (lookup_object h l) k.

(** The setter of [__proto__] that objects inherit from
    [Object.prototype]: an object or an array becomes the prototype, [null]
    removes it, any other value is ignored. *)
Definition set_prototype (o : object) (v : json) : object :=
  match v with
  | JObj _ | JArr _ => Object (own o) (Inherits v)
  | JNull => Object (own o) NoPrototype
  | JBool _ | JNum _ | JStr _ => o
  end.

(** [o.__proto__ = v]: a data property when [o] has one of that name, or
    inherits one, or has no prototype to inherit the setter from; the
    setter otherwise. *)
Definition assign_proto (o : object) (v : json) : object :=
  let as_data := Object (<["__proto__" := v]> (own o)) (proto o) in
  match own o !! "__proto__" with
  | Some _ => as_data
  | None =>
      match proto o with
      | NoPrototype => as_data
      | Inherits (JObj m) =>
          match m !! "__proto__" with
          | Some _ => as_data
          | None => set_prototype o v
          end
      | Inherits _ | ObjectPrototype => set_prototype o v
      end
  end.

(** [o.k = v] for each property of [props]: every key becomes an own
    property of [o], except [__proto__], which is assigned as above. *)
Definition assign_all (o : object) (props : jsobj) : object :=
  let o' := Object (delete "__proto__" props ∪ own o) (proto o) in
  match props !! "__proto__" with
  | Some v => assign_proto o' v
  | None => o'
  end.

(** A set of properties that can be assigned twice to the same effect:
    its [__proto__], if it has one, is neither [null] nor an object with a
    [__proto__] key of its own. *)
Definition reassignable (props : jsobj) : Prop :=
  match props !! "__proto__" with
  | Some JNull => False
  | Some (JObj m) => m !! "__proto__" = None
  | _ => True
  end.

Module defaults.
Definition projectConfigurationFilePath := "./lpp-vita-project.json".
Definition ebootFileName := "eboot.bin".
Definition indexFileName := "index.lua".
Definition tempDir := ".temp".
(** [defaults.config] is one object; the constant holds its address. *)
Definition config : loc := 0%nat.
(** The object literal that [defaults.config] holds when the script is
    loaded. *)
Definition config_literal : jsobj :=
  {[ "id" := JStr "HELLOWRLD";
     "title" := JStr "Hello World";
     "ports" := JObj {[ "ftp" := JNum 1337; "cmd" := JNum 1338 ]};
     "srcDir" := JStr "src";
     "outDir" := JStr "dist" ]}.
End defaults.

(** The store when the script has been loaded and nothing has run. *)
Definition initial_heap : heap :=
  {[ defaults.config := Object defaults.config_literal ObjectPrototype ]}.

Module errors.
Definition projectConfigFileIsMissing :=
  "vita-project.json file is missing. It's required for the build process.".
Definition idDoesNotConformRequirements :=
  "'id' is not defined or does not conform the requirements. It must be exactly 9 characters long.".
Definition titleIsNotAvailable := "'title' is not available.".
Definition srcDirDoesntExists :=
  "Source directory doesn't exist. Please create a directory with the name defined inside project file. Default directory name is '"
  +:+ template (defaults.config_literal !! "srcDir") +:+ "'".
Definition ebootFileIsMissing :=
  "eboot file is missing. Make sure you have the " +:+ defaults.ebootFileName
  +:+ " file at the source directory. Download it from 'https://github.com/Rinnegatamante/lpp-vita/releases/latest' if you don't have it and select which eboot you want to use and add it to the source directory with the name '"
  +:+ defaults.ebootFileName +:+ "'.".
Definition indexFileIsMissing :=
  "index file is missing. Make sure you have the " +:+ defaults.indexFileName
  +:+ " file at the source directory.".
Definition ipIsNotDefined :=
  "'ip' is not defined inside project file and not sent from connect call.".
End errors.

(** What a [throw] carries: one of the [errors] strings, or an error object
    raised inside a library call. *)
Inductive exn : Type :=
| Thrown (message : string)
| LibraryError (origin : string).

(** ** Files and streams *)

(** A file object travelling through a gulp stream.  [base] is written
    relative to the working directory when it lies inside it and as an
    absolute path otherwise, which is the form of the path that
    [gulp-filter] matches: the path of the file is [base/relative].  A
    directory has no contents. *)
Record vinyl (D : Type) : Type := Vinyl {
  base : string;
  relative : string;
  contents : option D
}.

Arguments Vinyl {D} base relative contents.
Arguments base {D} _.
Arguments relative {D} _.
Arguments contents {D} _.

(** What a file holds: bytes, or, for the archive that [zip] emits, the
    entries packed into it (the archive format itself is the library's). *)
Inductive data : Type :=
| Bytes (b : list Byte.byte)
| Zipped (entries : list (vinyl data)).

Abbreviation file := (vinyl data).

Definition path (f : file) : string := base f +:+ "/" +:+ relative f.

(** ** Glob patterns, as [gulp-filter] matches them

    A pattern is brace-expanded, then matched segment by segment against
    the path: [*] stands for any run of characters inside a segment, [**]
    for any run of segments, and a segment that starts with a dot is only
    matched by a pattern segment that starts with a dot. *)

Module Glob.

Definition slash : ascii := "/"%char.
Definition star : ascii := "*"%char.
Definition dot : ascii := "."%char.

Fixpoint segments (s : string) : list string :=
  match s with
  | EmptyString => [EmptyString]
  | String c r =>
      if Ascii.eqb c slash then EmptyString :: segments r
      else match segments r with
           | seg :: rest => String c seg :: rest
           | [] => [String c EmptyString]
           end
  end.

(** Brace expansion of one level of [{a,b,c}] groups.  [inside] holds the
    alternatives read so far and the one being read. *)
Fixpoint expand_from (inside : option (list string * string)) (p : string) : list string :=
  match p with
  | EmptyString =>
      match inside with
      | None => [EmptyString]
      | Some (alts, cur) => (alts ++ [cur])%list
      end
  | String c r =>
      match inside with
      | None =>
          if Ascii.eqb c "{"%char then expand_from (Some ([], EmptyString)) r
          else String c <$> expand_from None r
      | Some (alts, cur) =>
          if Ascii.eqb c ","%char then expand_from (Some ((alts ++ [cur])%list, EmptyString)) r
          else if Ascii.eqb c "}"%char then
            a ← (alts ++ [cur])%list; (fun rest => a +:+ rest) <$> expand_from None r
          else expand_from (Some (alts, cur +:+ String c EmptyString)) r
      end
  end.

Definition expand : string -> list string := expand_from None.

(** One pattern segment against one path segment. *)
Fixpoint wild (p s : string) : bool :=
  match p with
  | EmptyString => match s with EmptyString => true | _ => false end
  | String c p' =>
      if Ascii.eqb c star then
        (fix skip (s : string) : bool :=
           wild p' s || match s with
                        | EmptyString => false
                        | String _ s' => skip s'
                        end) s
      else match s with
           | EmptyString => false
           | String d s' => Ascii.eqb c d && wild p' s'
           end
  end.

Definition dotted (s : string) : bool :=
  match s with
  | String c _ => Ascii.eqb c dot
  | EmptyString => false
  end.

Definition segment_match (p s : string) : bool :=
  (negb (dotted s) || dotted p) && wild p s.

Fixpoint path_match (ps : list string) (segs : list string) : bool :=
  match ps with
  | [] => match segs with [] => true | _ => false end
  | p :: ps' =>
      if String.eqb p "**" then
        (fix descend (segs : list string) : bool :=
           path_match ps' segs
           || match segs with
              | [] => false
              | s :: rest => negb (dotted s) && descend rest
              end) segs
      else match segs with
           | [] => false
           | s :: rest => segment_match p s && path_match ps' rest
           end
  end.

Definition matches (patterns : list string) (p : string) : bool :=
  existsb (fun pat => existsb (fun q => path_match (segments q) (segments p)) (expand pat))
          patterns.

(** The extension of a path: what follows the last dot of its last
    segment. *)
Fixpoint after_last_dot (s : string) : option string :=
  match s with
  | EmptyString => None
  | String c r =>
      match after_last_dot r with
      | Some e => Some e
      | None => if Ascii.eqb c dot then Some r else None
      end
  end.

Definition extension (p : string) : option string :=
  last (segments p) ≫= after_last_dot.

(** Patterns without a [*], and names without a dot. *)
Fixpoint star_free (p : string) : bool :=
  match p with
  | EmptyString => true
  | String c r => negb (Ascii.eqb c star) && star_free r
  end.

Fixpoint dot_free (p : string) : bool :=
  match p with
  | EmptyString => true
  | String c r => negb (Ascii.eqb c dot) && dot_free r
  end.

(** The image extensions that the build recompresses. *)
Definition image_extensions : list string := ["bmp"; "png"; "jpg"].

Definition has_image_extension (p : string) : Prop :=
  exists e, e ∈ image_extensions /\ extension p = Some e.

End Glob.

(** ** Stream pipelines *)

Inductive stage : Type :=
| filter (patterns : list string)
| filter_restore
| pngquant_plugin
| rename (to : string)
| zip (name : string)
| dest (folder : string)
| dest_unresolved (folder : json).

Inductive pipeline : Type :=
| src (globs : list string)
| pipe (p : pipeline) (s : stage)
| merge (a b : pipeline).

(** The ways two streams can arrive at one consumer: each keeps its own
    order. *)
Inductive interleave {A} : list A -> list A -> list A -> Prop :=
| interleave_nil : interleave [] [] []
| interleave_left x xs ys zs :
    interleave xs ys zs -> interleave (x :: xs) ys (x :: zs)
| interleave_right y xs ys zs :
    interleave xs ys zs -> interleave xs (y :: ys) (y :: zs).

(** ** The environment of one run

    Everything the script reaches through a library: the file system, the
    JSON parser, the external tools. *)
Record Env : Type := {
  existsSync : string -> bool;
  readFileSync : string -> exn + string;
  JSON_parse : string -> exn + json;
  tmpdir : string;
  (** [execSync cmd]: [None] when the command exits with status zero *)
  execSync : string -> option exn;
  (** what [gulp.src] finds for a list of globs, once the stream flows *)
  glob : list string -> list file;
  (** the bytes [pngquant] produces for a file *)
  pngquant : string -> list Byte.byte -> list Byte.byte
}.

(** ** Observable actions *)

(** An operation whose promise settles in a later turn of the event loop. *)
Inductive io : Type :=
| StreamEnd (stream : pipeline)
    (* toPromise(stream): the stream ends, or fails *)
| NetcatSend (addr port : option json) (retry : Z) (text : string)
    (* nc.connect().send(text, ...) and the close that follows *)
| FtpAccess (host port : option json)
| FtpCd (dir : option json)
| FtpUploadFromDir (dir : string)
| Del (pattern : string)
| SetTimeout (ms : Z).

Inductive event : Type :=
| Log (message : string)
| Exists (p : string) (found : bool)
| Read (p : string)
| Exec (cmd : string)
| FtpClose
| IoStart (op : io)
| IoDone (op : io)
| IoFailed (op : io) (e : exn)
| Fulfilled (fn : string)
| Rejected (fn : string) (e : exn).

(** The paths that a run asked the file system about, in order. *)
Definition checked (t : list event) : list string :=
  omap (fun ev => match ev with Exists p _ => Some p | _ => None end) t.

(** A connection to the device being opened. *)
Definition opens_connection (ev : event) : bool :=
  match ev with
  | IoStart (NetcatSend _ _ _ _) | IoStart (FtpAccess _ _) => true
  | _ => false
  end.

Definition starts_upload (ev : event) : bool :=
  match ev with
  | IoStart (FtpUploadFromDir _) => true
  | _ => false
  end.

(** The operations that a run started, in order. *)
Definition started (t : list event) : list io :=
  omap (fun ev => match ev with IoStart op => Some op | _ => None end) t.

(** What a run did to the device and the disk, in order: the operations
    it started and the closing of the FTP connection. *)
Definition is_action (ev : event) : bool :=
  match ev with
  | IoStart _ | FtpClose => true
  | _ => false
  end.

Definition actions (t : list event) : list event := List.filter is_action t.

(** The remote directories that a run changed into, in order. *)
Definition changed_dirs (t : list event) : list (option json) :=
  omap (fun ev => match ev with IoStart (FtpCd d) => Some d | _ => None end) t.

(** ** The synchronous part: a state and exception monad *)

Record state : Type := State {
  store : heap;
  trace : list event
}.

Definition M (A : Type) : Type := state -> (exn + A) * state.

#[global] Instance M_ret : MRet M := fun A a s => (inr a, s).
#[global] Instance M_bind : MBind M := fun A B f m s =>
  match m s with
  | (inl e, s') => (inl e, s')
  | (inr a, s') => f a s'
  end.

Definition throw {A} (e : exn) : M A := fun s => (inl e, s).

Definition emit (ev : event) : M unit :=
  fun s => (inr tt, State (store s) (trace s ++ [ev])).

Definition logger (message : string) : M unit := emit (Log message).

Definition read_field (l : loc) (k : string) : M (option json) :=
  fun s => (inr (field (store s) l k), s).

(** [Object.assign(target, source)]: assigns each own enumerable property
    of [source] to the object at [target], and returns [target] itself. *)
Definition Object_assign (target : loc) (source : json) : M loc :=
  fun s =>
    (inr target,
     State (<[target := assign_all (lookup_object (store s) target)
                                    (own_enumerable source)]> (store s))
           (trace s)).

Definition lift_sum {A} (r : exn + A) : M A :=
  match r with
  | inl e => throw e
  | inr a => mret a
  end.

Section VitaProject.

Context (E : Env).

Definition fs_existsSync (p : string) : M bool :=
  let found := existsSync E p in
  emit (Exists p found);; mret found.

Definition fs_readFileSync (p : string) : M string :=
  emit (Read p);; lift_sum (readFileSync E p).

(** An instance of the class: its one data field is a reference. *)
Record VitaProject : Type := { configuration : loc }.

Definition readConfiguration (filePath : string) : M loc :=
  logger "Reading configuration...";;
  found ← fs_existsSync filePath;
  if negb found then throw (Thrown errors.projectConfigFileIsMissing) else
  text ← fs_readFileSync filePath;
  parsed ← lift_sum (JSON_parse E text);
  vitaProjectConfig ← Object_assign defaults.config parsed;
  logger "Configuration readed successfully.";;
  mret vitaProjectConfig.

Definition validateConfiguration (configuration : loc) : M unit :=
  logger "Validating configuration...";;
  id ← read_field configuration "id";
  if nullish id || strict_ne_num (opt_prop id "length") 9
  then throw (Thrown errors.idDoesNotConformRequirements) else
  title ← read_field configuration "title";
  if nullish title then throw (Thrown errors.titleIsNotAvailable) else
  logger "Configuration has no errors.".

Definition checkRequiredFiles (this : VitaProject) : M unit :=
  logger "Checking source directory first...";;
  srcDir ← read_field (configuration this) "srcDir";
  found ← fs_existsSync (template srcDir +:+ "/");
  if negb found then throw (Thrown errors.srcDirDoesntExists) else
  logger "Checking required files";;
  srcDir ← read_field (configuration this) "srcDir";
  found ← fs_existsSync (template srcDir +:+ "/" +:+ defaults.ebootFileName);
  if negb found then throw (Thrown errors.ebootFileIsMissing) else
  srcDir ← read_field (configuration this) "srcDir";
  found ← fs_existsSync (template srcDir +:+ "/" +:+ defaults.indexFileName);
  if negb found then throw (Thrown errors.indexFileIsMissing) else
  logger "Required files is in place.".

(** [new VitaProject(configurationFilePath)] *)
Definition new_VitaProject (configurationFilePath : option string) : M VitaProject :=
  c ← readConfiguration
        (default defaults.projectConfigurationFilePath configurationFilePath);
  let this := {| configuration := c |} in
  validateConfiguration (configuration this);;
  checkRequiredFiles this;;
  mret this.

End VitaProject.

Section Streams.

Context (E : Env).

Definition recompress (f : file) : file :=
  match contents f with
  | Some (Bytes b) => Vinyl (base f) (relative f) (Some (Bytes (pngquant E (path f) b)))
  | _ => f
  end.

(** What a stage lets through.  [held] is the restore side of the filter:
    the files the filter kept away from the stages after it.  A [dest]
    whose folder did not resolve to a path fails at its first file: it
    writes nothing and lets nothing through. *)
Inductive through : stage -> list file * list file -> list file * list file -> Prop :=
| through_filter patterns xs held :
    through (filter patterns) (xs, held)
      (base.filter (fun f => Glob.matches patterns (path f) = true) xs,
       (held ++ base.filter (fun f => Glob.matches patterns (path f) ≠ true) xs)%list)
| through_restore xs held ys :
    interleave xs held ys ->
    through filter_restore (xs, held) (ys, [])
| through_pngquant xs held :
    through pngquant_plugin (xs, held) (recompress <$> xs, held)
| through_rename to xs held :
    through (rename to) (xs, held)
      ((fun f => Vinyl (base f) to (contents f)) <$> xs, held)
| through_zip_empty name held :
    through (zip name) ([], held) ([], held)
| through_zip name x xs held :
    through (zip name) (x :: xs, held)
      ([Vinyl (base x) name (Some (Zipped (x :: xs)))], held)
| through_dest folder xs held :
    through (dest folder) (xs, held)
      ((fun f => Vinyl folder (relative f) (contents f)) <$> xs, held)
| through_dest_unresolved folder xs held :
    through (dest_unresolved folder) (xs, held) ([], held).

Inductive flows : pipeline -> list file * list file -> Prop :=
| flows_src globs :
    flows (src globs) (glob E globs, [])
| flows_pipe p s before after :
    flows p before -> through s before after -> flows (pipe p s) after
| flows_merge a b xs ha ys hb zs :
    flows a (xs, ha) -> flows b (ys, hb) -> interleave xs ys zs ->
    flows (merge a b) (zs, (ha ++ hb)%list).

(** One schedule, computed: a consumer that takes all of the first stream
    before the second. *)
Definition run_stage (s : stage) (st : list file * list file) : list file * list file :=
  let '(xs, held) := st in
  match s with
  | filter patterns =>
      (base.filter (fun f => Glob.matches patterns (path f) = true) xs,
       (held ++ base.filter (fun f => Glob.matches patterns (path f) ≠ true) xs)%list)
  | filter_restore => ((xs ++ held)%list, [])
  | pngquant_plugin => (recompress <$> xs, held)
  | rename to => ((fun f => Vinyl (base f) to (contents f)) <$> xs, held)
  | zip name =>
      match xs with
      | [] => ([], held)
      | x :: _ => ([Vinyl (base x) name (Some (Zipped xs))], held)
      end
  | dest folder => ((fun f => Vinyl folder (relative f) (contents f)) <$> xs, held)
  | dest_unresolved _ => ([], held)
  end.

Fixpoint run (p : pipeline) : list file * list file :=
  match p with
  | src globs => (glob E globs, [])
  | pipe p s => run_stage s (run p)
  | merge a b => (((run a).1 ++ (run b).1)%list, ((run a).2 ++ (run b).2)%list)
  end.

End Streams.

(** ** Packaging *)

(** [gulp.dest(folder)] refuses, when it is called, a folder that is
    falsy.  Any other value gives a stream; when the value is not a string
    the folder does not resolve. *)
Definition gulp_dest (folder : option json) : M stage :=
  if falsy folder
  then throw (LibraryError "Invalid dest() folder argument. Please specify a non-empty string or a function.")
  else match folder with
       | Some (JStr s) => mret (dest s)
       | Some v => mret (dest_unresolved v)
       | None => throw (LibraryError "Invalid dest() folder argument. Please specify a non-empty string or a function.")
       end.

Definition double_quote : string := String "034"%char EmptyString.

(** The command line that [generateSfoFile] builds. *)
Definition mksfoex_command (id title : option json) (path : string) : string :=
  "vita-mksfoex -s TITLE_ID=" +:+ template id +:+ " "
  +:+ double_quote +:+ template title +:+ double_quote +:+ " " +:+ path.

Section Build.

Context (E : Env).

Definition child_process_execSync (cmd : string) : M unit :=
  emit (Exec cmd);;
  match execSync E cmd with
  | Some e => throw e
  | None => mret tt
  end.

Definition generateSfoFile (this : VitaProject) (path : string) : M unit :=
  logger ("Generating sfo file to path: " +:+ path);;
  id ← read_field (configuration this) "id";
  title ← read_field (configuration this) "title";
  child_process_execSync (mksfoex_command id title path);;
  logger "Sfo file generated.".

Definition generatedSfoFile (this : VitaProject) : M pipeline :=
  let sfoFilePath := tmpdir E +:+ "/param.sfo" in
  generateSfoFile this sfoFilePath;;
  mret (pipe (src [sfoFilePath]) (rename "sce_sys/param.sfo")).

Definition sourceFiles (this : VitaProject) : M pipeline :=
  logger "Bundling source files...";;
  srcDir ← read_field (configuration this) "srcDir";
  fallback ← read_field defaults.config "srcDir";
  mret (src [template (srcDir ?? fallback ?? Some (JStr "src")) +:+ "/**/*"]).

Definition srcFiles (this : VitaProject) : M pipeline :=
  logger "Bundling source files.";;
  srcDir ← read_field (configuration this) "srcDir";
  mret (src [template srcDir +:+ "/**/*"]).

Definition processPipe (p : pipeline) : pipeline :=
  let f := filter ["**/*.{bmp,png,jpg}"] in
  pipe (pipe (pipe p f) pngquant_plugin) filter_restore.

Definition processedSrcFiles (this : VitaProject) : M pipeline :=
  logger "Processing system and additional files.";;
  files ← srcFiles this;
  mret (processPipe files).

Definition bundledFiles (this : VitaProject) : M pipeline :=
  logger "Assembling project files...";;
  sfo ← generatedSfoFile this;
  processed ← processedSrcFiles this;
  mret (merge sfo processed).

Definition build (this : VitaProject) : M pipeline :=
  bundled ← bundledFiles this;
  title ← read_field (configuration this) "title";
  let archive := zip (template title +:+ ".vpk") in
  outDir ← read_field (configuration this) "outDir";
  fallback ← read_field defaults.config "outDir";
  target ← gulp_dest (outDir ?? fallback);
  mret (pipe (pipe bundled archive) target).

End Build.

(** ** The asynchronous part

    The body of an async function, cut at its await points.  [Sync] is a
    stretch of synchronous code; [Await] waits for an operation of a
    library; [AwaitCall] is [await f(...)] and [Call] is [f(...)] with the
    promise dropped, for an [f] that returns a promise. *)
Inductive code : Type :=
| Return
| Throw (e : exn)
| Sync {A : Type} (m : M A) (k : A -> code)
| Await (op : io) (k : code)
| AwaitCall (fn : string) (body : code) (k : code)
| Call (fn : string) (body : code) (k : code).

Notation "'val' x ← m ; k" := (Sync m (fun x => k))
  (at level 10, x binder, m at level 100, k at level 200).
Notation "'sync' m ; k" := (Sync m (fun _ => k))
  (at level 10, m at level 100, k at level 200).
Notation "'await' op ; k" := (Await op k)
  (at level 10, op at level 100, k at level 200).
Notation "'await_call' fn ⟨ body ⟩ ; k" := (AwaitCall fn body k)
  (at level 10, fn at level 0, body at level 200, k at level 200).

(** A function suspended at an await, and the chain of functions awaiting
    it. *)
Record frame : Type := Frame { frame_fn : string; frame_rest : code }.

Record task : Type := Task {
  task_fn : string;
  task_code : code;
  task_callers : list frame
}.

Record machine : Type := Machine {
  world : state;
  microtasks : list task;
  pending : list (io * task);
  completed : nat
}.

Definition observe (ev : event) (m : machine) : machine :=
  Machine (State (store (world m)) (trace (world m) ++ [ev]))
          (microtasks m) (pending m) (completed m).

(** The promise of [fn] settles: whoever awaits it is resumed in a
    microtask, with the exception if there is one. *)
Definition settle (fn : string) (outcome : option exn) (callers : list frame)
    (m : machine) : machine :=
  let m := observe (match outcome with
                    | None => Fulfilled fn
                    | Some e => Rejected fn e
                    end) m in
  match callers with
  | [] => m
  | Frame caller rest :: up =>
      let resume := match outcome with
                    | None => rest
                    | Some e => Throw e
                    end in
      Machine (world m) (microtasks m ++ [Task caller resume up])
              (pending m) (completed m)
  end.

(** Runs [fn] from [c] to its next await, or to its end. *)
Fixpoint exec (c : code) (fn : string) (callers : list frame) (m : machine) : machine :=
  match c with
  | Return => settle fn None callers m
  | Throw e => settle fn (Some e) callers m
  | Sync act k =>
      match act (world m) with
      | (inl e, w) =>
          settle fn (Some e) callers (Machine w (microtasks m) (pending m) (completed m))
      | (inr a, w) =>
          exec (k a) fn callers (Machine w (microtasks m) (pending m) (completed m))
      end
  | Await op k =>
      let m := observe (IoStart op) m in
      Machine (world m) (microtasks m)
              (pending m ++ [(op, Task fn k callers)]) (completed m)
  | AwaitCall callee body k =>
      exec body callee (Frame fn k :: callers) m
  | Call callee body k =>
      exec k fn callers (exec body callee [] m)
  end.

Section EventLoop.

(** How the [n]-th operation to complete ends: [None] when it succeeds. *)
Context (outcome : nat -> io -> option exn).

(** One turn: a microtask if there is one, else the completion of the
    oldest operation in flight. *)
Definition turn (m : machine) : option machine :=
  match microtasks m with
  | t :: q =>
      Some (exec (task_code t) (task_fn t) (task_callers t)
                 (Machine (world m) q (pending m) (completed m)))
  | [] =>
      match pending m with
      | (op, t) :: q =>
          let m' := Machine (world m) [] q (S (completed m)) in
          Some match outcome (completed m) op with
               | None =>
                   exec (task_code t) (task_fn t) (task_callers t) (observe (IoDone op) m')
               | Some e =>
                   exec (Throw e) (task_fn t) (task_callers t) (observe (IoFailed op e) m')
               end
      | [] => None
      end
  end.

Fixpoint loop (turns : nat) (m : machine) : machine :=
  match turns with
  | O => m
  | S n =>
      match turn m with
      | Some m' => loop n m'
      | None => m
      end
  end.

(** Calls [fn] as the event loop's only job and gives it [turns] turns. *)
Definition start (fn : string) (c : code) (w : state) : machine :=
  exec c fn [] (Machine w [] [] 0).

Definition run_async (turns : nat) (fn : string) (c : code) (w : state) : machine :=
  loop turns (start fn c w).

End EventLoop.

Definition idle (m : machine) : Prop := microtasks m = [] /\ pending m = [].

(** ** Talking to the device *)

Record NetcatClient : Type := {
  nc_addr : option json;
  nc_port : option json;
  nc_retry : Z
}.

Definition try_catch {A} (m : M A) : M (exn + A) :=
  fun s => let '(r, s') := m s in (inr r, s').

Section Deploy.

Context (E : Env).

Definition generateNetcatClient (this : VitaProject) : M NetcatClient :=
  ip ← read_field (configuration this) "ip";
  if nullish ip then throw (Thrown errors.ipIsNotDefined) else
  ip ← read_field (configuration this) "ip";
  ports ← read_field (configuration this) "ports";
  default_ports ← read_field defaults.config "ports";
  mret {| nc_addr := ip;
          nc_port := opt_prop ports "cmd" ?? opt_prop default_ports "cmd" ?? Some (JNum 1338);
          nc_retry := 5000 |}.

(** The executor of the promise: when [generateNetcatClient] throws, the
    promise is rejected with what it threw and [nc] stays undefined, so the
    call on [nc] that follows throws inside the executor, which a promise
    that is already rejected ignores. *)
Definition sendCmdAsync (this : VitaProject) (cmd : string) : code :=
  val attempt ← try_catch (generateNetcatClient this);
  match attempt with
  | inl error => Throw error
  | inr nc =>
      await NetcatSend (nc_addr nc) (nc_port nc) (nc_retry nc) (cmd +:+ String "010"%char EmptyString);
      Return
  end.

Definition sleepAsync (ms : Z) : code :=
  await SetTimeout ms; Return.

Definition clearTempDirectoryAsync (this : VitaProject) : code :=
  sync logger "Clearing temp directory...";
  await Del defaults.tempDir;
  sync logger "Temp directory cleared.";
  Return.

Definition deployPipeAsync (this : VitaProject) (files : pipeline) : code :=
  sync logger "Bundling project files to temp directory.";
  await StreamEnd (pipe files (dest defaults.tempDir));
  sync logger "Files bundled.";
  sync logger "Closing applications just in case.";
  await_call "sendCmdAsync" ⟨ sendCmdAsync this "destroy" ⟩;
  sync logger "Connecting to FTP server...";
  val ip ← read_field (configuration this) "ip";
  val ports ← read_field (configuration this) "ports";
  val default_ports ← read_field defaults.config "ports";
  await FtpAccess (ip ?? Some (JStr "localhost"))
                  (opt_prop ports "ftp" ?? opt_prop default_ports "ftp" ?? Some (JNum 1337));
  sync logger "Connected to FTP server.";
  sync logger "Going to ux0: directory";
  await FtpCd (Some (JStr "ux0:"));
  sync logger "Going to app directory";
  await FtpCd (Some (JStr "app"));
  val id ← read_field (configuration this) "id";
  sync logger ("Going to " +:+ template id +:+ " directory");
  val id ← read_field (configuration this) "id";
  val default_id ← read_field defaults.config "id";
  await FtpCd (id ?? default_id);
  sync logger "Uploading files...";
  await FtpUploadFromDir defaults.tempDir;
  sync logger "Files uploaded.";
  sync logger "Closing connection.";
  sync emit FtpClose;
  sync logger "Connection closed";
  sync logger "Opening application again";
  val id ← read_field (configuration this) "id";
  await_call "sendCmdAsync" ⟨ sendCmdAsync this ("launch " +:+ template id) ⟩;
  sync logger "Opened application.";
  sync logger "Clearing temp directory";
  await_call "clearTempDirectoryAsync" ⟨ clearTempDirectoryAsync this ⟩;
  sync logger "Cleared temp directory.";
  Return.

Definition deployAsync (this : VitaProject) : code :=
  val files ← processedSrcFiles this;
  Call "deployPipeAsync" (deployPipeAsync this files) Return.

(** *** The gulp tasks *)

Definition task_build : code :=
  val project ← new_VitaProject E None;
  val _ ← build E project;
  Return.

Definition task_default : code :=
  val project ← new_VitaProject E None;
  val _ ← build E project;
  Return.

Definition task_test_cmd : code :=
  val project ← new_VitaProject E None;
  sync logger "Launching application...";
  val id ← read_field (configuration project) "id";
  await_call "sendCmdAsync" ⟨ sendCmdAsync project ("launch " +:+ template id) ⟩;
  sync logger "Application launched.";
  sync logger "Waiting two seconds.";
  await_call "sleepAsync" ⟨ sleepAsync 2000 ⟩;
  sync logger "Destroying applications...";
  await_call "sendCmdAsync" ⟨ sendCmdAsync project "destroy" ⟩;
  sync logger "Applications destroyed.";
  Return.

Definition task_deploy : code :=
  val project ← new_VitaProject E None;
  await_call "deployAsync" ⟨ deployAsync project ⟩;
  Return.

End Deploy.

(** ** A sample project

    The configuration [{id: "TESTGAME1", title: "Test Game", srcDir: "src",
    outDir: "dist"}] in a working directory whose [src/] holds [eboot.bin],
    [index.lua] and one image. *)

Module Sample.

Definition quoted (s : string) : string := double_quote +:+ s +:+ double_quote.

Definition descriptor_text : string :=
  "{" +:+ quoted "id" +:+ ":" +:+ quoted "TESTGAME1" +:+ ","
      +:+ quoted "title" +:+ ":" +:+ quoted "Test Game" +:+ ","
      +:+ quoted "srcDir" +:+ ":" +:+ quoted "src" +:+ ","
      +:+ quoted "outDir" +:+ ":" +:+ quoted "dist" +:+ "}".

Definition descriptor_properties : jsobj :=
  {[ "id" := JStr "TESTGAME1"; "title" := JStr "Test Game";
     "srcDir" := JStr "src"; "outDir" := JStr "dist" ]}.

Definition descriptor : json := JObj descriptor_properties.

Definition eboot : file := Vinyl "src" "eboot.bin" (Some (Bytes [Byte.x7f; Byte.x45])).
Definition index : file := Vinyl "src" "index.lua" (Some (Bytes [Byte.x2d; Byte.x2d])).
Definition logo : file := Vinyl "src" "img/logo.png" (Some (Bytes [Byte.x50; Byte.x4e; Byte.x47])).
Definition sfo : file := Vinyl "/tmp" "param.sfo" (Some (Bytes [Byte.x00; Byte.x50])).

(** The file system and tools, given what the descriptor file parses to. *)
Definition env_with (parsed : json) : Env := {|
  existsSync p :=
    bool_decide (p ∈ ["./lpp-vita-project.json"; "src/"; "src/eboot.bin"; "src/index.lua"]);
  readFileSync p :=
    if decide (p = "./lpp-vita-project.json") then inr descriptor_text
    else inl (LibraryError "ENOENT");
  JSON_parse text :=
    if decide (text = descriptor_text) then inr parsed
    else inl (LibraryError "SyntaxError");
  tmpdir := "/tmp";
  execSync _ := None;
  glob globs :=
    if decide (globs = ["/tmp/param.sfo"]) then [sfo]
    else if decide (globs = ["src/**/*"]) then [eboot; index; logo]
    else [];
  pngquant _ b := take 2 b
|}.

Definition env : Env := env_with descriptor.

(** The same project with a device address. *)
Definition descriptor_with_ip : json :=
  JObj {[ "id" := JStr "TESTGAME1"; "title" := JStr "Test Game";
          "ip" := JStr "192.168.1.20";
          "srcDir" := JStr "src"; "outDir" := JStr "dist" ]}.

Definition loaded : state := State initial_heap [].

(** Every operation succeeds. *)
Definition all_succeed : nat -> io -> option exn := fun _ _ => None.

(** The device has [ux0:] but no [app] directory: the fifth operation to
    complete, the second change of directory, fails. *)
Definition app_missing : nat -> io -> option exn :=
  fun i _ => if Nat.eqb i 4 then Some (LibraryError "550 No such directory") else None.

(** The connection drops during the upload, the seventh operation. *)
Definition upload_fails : nat -> io -> option exn :=
  fun i _ => if Nat.eqb i 6 then Some (LibraryError "426 Connection closed") else None.

Definition project : VitaProject := {| configuration := defaults.config |}.

(** The store once the descriptor with a device address has been loaded. *)
Definition with_ip : state :=
  State {[ defaults.config :=
             Object (own_enumerable descriptor_with_ip ∪ defaults.config_literal)
                    ObjectPrototype ]} [].


(** A configuration with a short id and no title at all, and one with a
    good id and an empty title. *)
Definition short_id : state :=
  State {[ defaults.config := Object {[ "id" := JStr "SHORT" ]} ObjectPrototype ]} [].

Definition empty_title : state :=
  State {[ defaults.config :=
             Object {[ "id" := JStr "TESTGAME1"; "title" := JStr EmptyString ]}
                    ObjectPrototype ]} [].

Definition no_title : state :=
  State {[ defaults.config :=
             Object {[ "id" := JStr "TESTGAME1"; "title" := JNull ]} ObjectPrototype ]} [].

(** A descriptor whose id is too short. *)
Definition descriptor_short_id : json := JObj {[ "id" := JStr "SHORT" ]}.

(** The sample project on a machine where the metadata tool is missing. *)
Definition env_tool_fails : Env := {|
  existsSync := existsSync env;
  readFileSync := readFileSync env;
  JSON_parse := JSON_parse env;
  tmpdir := tmpdir env;
  execSync _ := Some (LibraryError "vita-mksfoex: not found");
  glob := glob env;
  pngquant := pngquant env
|}.

(** A configuration whose output directory is null. *)
Definition null_outDir : state :=
  State {[ defaults.config :=
             Object (<["outDir" := JNull]> defaults.config_literal) ObjectPrototype ]} [].


(** A descriptor with a [__proto__] key, and the object under that key. *)
Definition inherited_ip : json := JObj {[ "ip" := JStr "10.0.0.1" ]}.

Definition descriptor_proto : json := JObj {[ "__proto__" := inherited_ip ]}.

(** A descriptor whose [__proto__] is null. *)
Definition descriptor_null_proto : json := JObj {[ "__proto__" := JNull ]}.

End Sample.

(** * Properties *)

(** ** Small facts about the value model *)

Lemma strict_ne_num_false (v : option json) (n : Z) :
  strict_ne_num v n = false <-> v = Some (JNum n).
Proof.
  unfold strict_ne_num. split.
  - destruct v as [[| | z | | |]|]; try discriminate.
    intros H. apply negb_false_iff, Z.eqb_eq in H. by subst.
  - intros ->. by rewrite Z.eqb_refl.
Qed.

Lemma strict_ne_num_true (v : option json) (n : Z) :
  strict_ne_num v n = true <-> v ≠ Some (JNum n).
Proof.
  rewrite <- not_false_iff_true, strict_ne_num_false. reflexivity.
Qed.

Lemma checked_app (t u : list event) : checked (t ++ u) = checked t ++ checked u.
Proof. apply omap_app. Qed.

(** Unfolds the monad of the synchronous part. *)
Ltac step_M :=
  unfold logger, emit, read_field, throw, lift_sum, mbind, M_bind, mret, M_ret;
  cbn.

(** ** Assigning properties *)

Lemma assign_all_plain (o : object) (props : jsobj) :
  props !! "__proto__" = None ->
  assign_all o props = Object (props ∪ own o) (proto o).
Proof.
  intros H. unfold assign_all. by rewrite H, delete_id.
Qed.

Lemma proto_key_union (props m : jsobj) (k : string) :
  k ≠ "__proto__" -> (delete "__proto__" props ∪ m) !! k = (props ∪ m) !! k.
Proof.
  intros Hk. rewrite !lookup_union. by rewrite lookup_delete_ne.
Qed.

(** Every key but [__proto__] becomes an own property. *)
Lemma own_assign_all (o : object) (props : jsobj) (k : string) :
  k ≠ "__proto__" -> own (assign_all o props) !! k = (props ∪ own o) !! k.
Proof.
  intros Hk. unfold assign_all.
  destruct (props !! "__proto__") as [v|]; cbn; [|by apply proto_key_union].
  unfold assign_proto. cbn.
  assert (Hdata : (<["__proto__" := v]> (delete "__proto__" props ∪ own o)) !! k
                  = (props ∪ own o) !! k).
  { rewrite lookup_insert_ne by done. by apply proto_key_union. }
  assert (Hset : own (set_prototype
                        (Object (delete "__proto__" props ∪ own o) (proto o)) v) !! k
                 = (props ∪ own o) !! k).
  { destruct v; cbn; by apply proto_key_union. }
  destruct ((delete "__proto__" props ∪ own o) !! "__proto__"); [exact Hdata|].
  destruct (proto o) as [| |[| | | | |m]]; try exact Hset; try exact Hdata.
  by destruct (m !! "__proto__").
Qed.



Lemma lookup_object_insert (h : heap) (l : loc) (o : object) :
  lookup_object (<[l := o]> h) l = o.
Proof. unfold lookup_object. by rewrite lookup_insert_eq. Qed.

(** ** Loading the configuration *)

Section Loading.

Context (E : Env).

(** What [readConfiguration] does once the file is there and parses: the
    returned reference is [defaults.config], and the parsed properties have
    been assigned to that object. *)
Lemma readConfiguration_spec (filePath text : string) (parsed : json) (s : state) :
  existsSync E filePath = true ->
  readFileSync E filePath = inr text ->
  JSON_parse E text = inr parsed ->
  exists s',
    readConfiguration E filePath s = (inr defaults.config, s') /\
    store s' = <[defaults.config :=
                   assign_all (lookup_object (store s) defaults.config)
                              (own_enumerable parsed)]> (store s) /\
    lookup_object (store s') defaults.config
      = assign_all (lookup_object (store s) defaults.config) (own_enumerable parsed).
Proof.
  intros Hex Hrd Hparse.
  eexists. split; [|split].
  - unfold readConfiguration, fs_existsSync, fs_readFileSync, Object_assign.
    step_M. rewrite Hex. cbn. rewrite Hrd. cbn. rewrite Hparse. cbn. reflexivity.
  - reflexivity.
  - cbn. apply lookup_object_insert.
Qed.


End Loading.


(** ** Validating the configuration *)

(** C6. A configuration whose [id] is null or undefined, or whose [id] has
    a [length] other than 9, is rejected with [idDoesNotConformRequirements],
    whatever its title: the first violation is the one reported. *)
Theorem validateConfiguration_InvalidId (c : loc) (s : state) :
  nullish (field (store s) c "id") = true
  \/ opt_prop (field (store s) c "id") "length" ≠ Some (JNum 9) ->
  (validateConfiguration c s).1 = inl (Thrown errors.idDoesNotConformRequirements)
  /\ (validateConfiguration c s).1 ≠ inl (Thrown errors.titleIsNotAvailable).
Proof.
  intros H.
  assert (Hguard : nullish (field (store s) c "id")
                   || strict_ne_num (opt_prop (field (store s) c "id") "length") 9 = true).
  { destruct H as [->| H]; [done|].
    apply strict_ne_num_true in H. rewrite H. apply orb_true_r. }
  unfold validateConfiguration. step_M. rewrite Hguard. cbn.
  split; [reflexivity | discriminate].
Qed.

(** C2, as the code has it. A configuration whose [title] is null or
    undefined never passes: it is rejected with [titleIsNotAvailable] when
    its [id] is acceptable, and with [idDoesNotConformRequirements]
    otherwise. *)
Theorem validateConfiguration_null_title (c : loc) (s : state) :
  nullish (field (store s) c "title") = true ->
  (validateConfiguration c s).1
  = inl (Thrown (if nullish (field (store s) c "id")
                    || strict_ne_num (opt_prop (field (store s) c "id") "length") 9
                 then errors.idDoesNotConformRequirements
                 else errors.titleIsNotAvailable)).
Proof.
  intros H. unfold validateConfiguration. step_M.
  destruct (nullish (field (store s) c "id") || _); cbn; [reflexivity|].
  rewrite H. reflexivity.
Qed.

(** ** Checking the required files *)

(** C7. [checkRequiredFiles] asks for the source directory first and stops
    there when it is missing; only then for [eboot.bin], and only then for
    [index.lua]. *)
Theorem checkRequiredFiles_order (E : Env) (this : VitaProject) (s : state) :
  let d := template (field (store s) (configuration this) "srcDir") in
  let r := checkRequiredFiles E this s in
  let asked := fun paths => checked (trace r.2) = checked (trace s) ++ paths in
  if existsSync E (d +:+ "/") then
    if existsSync E (d +:+ "/" +:+ "eboot.bin") then
      if existsSync E (d +:+ "/" +:+ "index.lua") then
        r.1 = inr tt
        /\ asked [d +:+ "/"; d +:+ "/" +:+ "eboot.bin"; d +:+ "/" +:+ "index.lua"]
      else
        r.1 = inl (Thrown errors.indexFileIsMissing)
        /\ asked [d +:+ "/"; d +:+ "/" +:+ "eboot.bin"; d +:+ "/" +:+ "index.lua"]
    else
      r.1 = inl (Thrown errors.ebootFileIsMissing)
      /\ asked [d +:+ "/"; d +:+ "/" +:+ "eboot.bin"]
  else
    r.1 = inl (Thrown errors.srcDirDoesntExists)
    /\ asked [d +:+ "/"].
Proof.
  intros d r asked. subst d r asked.
  unfold checkRequiredFiles, fs_existsSync,
    defaults.ebootFileName, defaults.indexFileName.
  step_M.
  repeat match goal with
         | |- context [existsSync E ?p] =>
             let H := fresh "H" in
             destruct (existsSync E p) eqn:H; cbn
         end;
    (split; [reflexivity|]); rewrite !checked_app; cbn;
    by rewrite ?app_nil_r, <- ?app_assoc.
Qed.

(** ** Glob matching *)

Module GlobFacts.
Import Glob.

Lemma wild_literal (p : string) :
  star_free p = true -> forall s, wild p s = true -> s = p.
Proof.
  induction p as [|c p IH]; cbn; intros Hp s Hw.
  - by destruct s.
  - apply andb_true_iff in Hp as [Hc Hp].
    apply negb_true_iff in Hc. rewrite Hc in Hw.
    destruct s as [|d s]; [discriminate|].
    apply andb_true_iff in Hw as [Hcd Hw].
    apply Ascii.eqb_eq in Hcd as ->. f_equal. by apply IH.
Qed.

Lemma wild_star (p s : string) :
  wild (String star p) s = true ->
  exists u t, s = u +:+ t /\ wild p t = true.
Proof.
  cbn. induction s as [|d s IH]; intros H.
  - apply orb_true_iff in H as [H|H]; [|discriminate].
    by exists EmptyString, EmptyString.
  - apply orb_true_iff in H as [H|H].
    + by exists EmptyString, (String d s).
    + destruct (IH H) as (u & t & -> & Ht).
      by exists (String d u), t.
Qed.

Lemma after_last_dot_free (e : string) :
  dot_free e = true -> after_last_dot e = None.
Proof.
  induction e as [|c e IH]; cbn; [done|]. intros H.
  apply andb_true_iff in H as [Hc He]. apply negb_true_iff in Hc.
  by rewrite (IH He), Hc.
Qed.

Lemma after_last_dot_suffix (u e : string) :
  dot_free e = true -> after_last_dot (u +:+ String dot e) = Some e.
Proof.
  intros He. induction u as [|c u IH].
  - change (after_last_dot (String dot e) = Some e). cbn [after_last_dot].
    rewrite (after_last_dot_free e He). by rewrite Ascii.eqb_refl.
  - change (after_last_dot (String c (u +:+ String dot e)) = Some e).
    cbn [after_last_dot]. by rewrite IH.
Qed.

(** A segment matched by [*.e] ends in [.e]. *)
Lemma segment_match_extension (e seg : string) :
  star_free e = true -> dot_free e = true ->
  segment_match (String star (String dot e)) seg = true ->
  after_last_dot seg = Some e.
Proof.
  intros Hs Hd H. unfold segment_match in H.
  apply andb_true_iff in H as [_ H].
  apply wild_star in H as (u & t & -> & Ht).
  apply (wild_literal (String dot e)) in Ht.
  - subst t. by apply after_last_dot_suffix.
  - cbn. by rewrite Hs.
Qed.

(** A path matched by [**/q] has a last segment, which [q] matches. *)
Lemma path_match_globstar (q : string) (segs : list string) :
  String.eqb q "**" = false ->
  path_match ["**"; q] segs = true ->
  exists seg, last segs = Some seg /\ segment_match q seg = true.
Proof.
  intros Hq. cbn. rewrite Hq.
  induction segs as [|s rest IH]; intros H.
  - apply orb_true_iff in H as [H|H]; discriminate.
  - apply orb_true_iff in H as [H|H].
    + apply andb_true_iff in H as [Hs Hrest].
      destruct rest; [|discriminate]. by exists s.
    + apply andb_true_iff in H as [_ H].
      destruct (IH H) as (seg & Hlast & Hseg).
      exists seg. split; [|done].
      destruct rest; [discriminate|]. exact Hlast.
Qed.

(** The filter of [processPipe] lets through only paths with an image
    extension. *)
Lemma image_filter_extension (p : string) :
  matches ["**/*.{bmp,png,jpg}"] p = true -> has_image_extension p.
Proof.
  unfold matches. cbn [existsb].
  change (expand "**/*.{bmp,png,jpg}") with ["**/*.bmp"; "**/*.png"; "**/*.jpg"].
  cbn [existsb].
  change (segments "**/*.bmp") with ["**"; "*.bmp"].
  change (segments "**/*.png") with ["**"; "*.png"].
  change (segments "**/*.jpg") with ["**"; "*.jpg"].
  rewrite !orb_false_r. intros H.
  assert (Hone : forall e, e ∈ image_extensions ->
            star_free e = true -> dot_free e = true ->
            path_match ["**"; String star (String dot e)] (segments p) = true ->
            has_image_extension p).
  { intros e He Hs Hd Hm.
    apply path_match_globstar in Hm as (seg & Hlast & Hseg); [|done].
    exists e. split; [done|]. unfold extension. rewrite Hlast. cbn.
    by apply segment_match_extension. }
  apply orb_true_iff in H as [H|H]; [|apply orb_true_iff in H as [H|H]].
  - apply (Hone "bmp"); [set_solver|done..].
  - apply (Hone "png"); [set_solver|done..].
  - apply (Hone "jpg"); [set_solver|done..].
Qed.

End GlobFacts.

(** ** Streams *)

Lemma interleave_nil_l {A} (ys zs : list A) : interleave [] ys zs -> zs = ys.
Proof.
  intros H. remember [] as xs eqn:Hxs. induction H; subst; try done.
  f_equal. by apply IHinterleave.
Qed.

Lemma interleave_nil_r {A} (xs zs : list A) : interleave xs [] zs -> zs = xs.
Proof.
  intros H. remember [] as ys eqn:Hys. induction H; subst; try done.
  f_equal. by apply IHinterleave.
Qed.

Lemma interleave_app {A} (xs ys : list A) : interleave xs ys (xs ++ ys).
Proof.
  induction xs as [|x xs IH]; cbn.
  - induction ys; constructor; done.
  - by constructor.
Qed.

Lemma interleave_Permutation {A} (xs ys zs : list A) :
  interleave xs ys zs -> zs ≡ₚ xs ++ ys.
Proof.
  induction 1; cbn; [done| by f_equiv |].
  rewrite IHinterleave. by rewrite Permutation_middle.
Qed.

Lemma interleave_elem_of {A} (xs ys zs : list A) (z : A) :
  interleave xs ys zs -> z ∈ zs <-> z ∈ xs \/ z ∈ ys.
Proof.
  intros H. rewrite (interleave_Permutation _ _ _ H). apply elem_of_app.
Qed.

Section StreamFacts.

Context (E : Env).

Lemma recompress_path (f : file) :
  base (recompress E f) = base f /\ relative (recompress E f) = relative f.
Proof. unfold recompress. by destruct (contents f) as [[]|]. Qed.



(** What comes out of [processPipe]: the files that the filter matched,
    recompressed, arriving among the others, which are as they were. *)
Lemma processPipe_flows (p : pipeline) (out : list file * list file) :
  flows E (processPipe p) out ->
  exists xs held,
    flows E p (xs, held) /\
    out.2 = [] /\
    interleave
      (recompress E <$> base.filter (fun f => Glob.matches ["**/*.{bmp,png,jpg}"] (path f) = true) xs)
      (held ++ base.filter (fun f => Glob.matches ["**/*.{bmp,png,jpg}"] (path f) ≠ true) xs)
      out.1.
Proof.
  unfold processPipe. intros H.
  inversion H as [| p3 s3 st3 out3 H3 T3 |]; subst; clear H.
  inversion H3 as [| p2 s2 st2 out2 H2 T2 |]; subst; clear H3.
  inversion H2 as [| p1 s1 st1 out1 H1 T1 |]; subst; clear H2.
  inversion T1; subst; clear T1.
  inversion T2; subst; clear T2.
  inversion T3; subst; clear T3.
  eauto.
Qed.

End StreamFacts.

(** C8. Of the files that enter [processPipe], those that reach
    [pngquant] all have the extension [bmp], [png] or [jpg] and keep their
    path; the others arrive as they were; and when no file has such an
    extension the output is the input. *)
Theorem processPipe_only_images
    (E : Env) (globs : list string) (out : list file * list file) :
  flows E (processPipe (src globs)) out ->
  out.2 = []
  /\ interleave
       (recompress E <$>
          base.filter (fun f => Glob.matches ["**/*.{bmp,png,jpg}"] (path f) = true) (glob E globs))
       (base.filter (fun f => Glob.matches ["**/*.{bmp,png,jpg}"] (path f) ≠ true) (glob E globs))
       out.1
  /\ (forall f,
        f ∈ base.filter (fun f => Glob.matches ["**/*.{bmp,png,jpg}"] (path f) = true) (glob E globs) ->
        Glob.has_image_extension (path f)
        /\ base (recompress E f) = base f
        /\ relative (recompress E f) = relative f)
  /\ ((forall f, f ∈ glob E globs -> ~ Glob.has_image_extension (path f)) ->
      out.1 = glob E globs).
Proof.
  intros H.
  apply processPipe_flows in H as (xs & held & Hsrc & Hheld & Hout).
  inversion Hsrc; subst; clear Hsrc. cbn [app] in Hout.
  split; [exact Hheld|]. split; [exact Hout|]. split.
  - intros f Hf. apply list_elem_of_filter in Hf as [Hm _].
    split; [by apply GlobFacts.image_filter_extension | apply recompress_path].
  - intros Hnone.
    assert (Hno : forall f, f ∈ glob E globs ->
              Glob.matches ["**/*.{bmp,png,jpg}"] (path f) ≠ true).
    { intros f Hf Hm. apply (Hnone f Hf).
      by apply GlobFacts.image_filter_extension. }
    revert Hout Hno. generalize (glob E globs) as xs. intros xs Hout Hno.
    assert (Himg : base.filter (fun f => Glob.matches ["**/*.{bmp,png,jpg}"] (path f) = true) xs = []).
    { clear Hout. induction xs as [|x xs IH]; [done|].
      rewrite filter_cons_False by (apply Hno; left).
      apply IH. intros f Hf. apply Hno. by right. }
    assert (Hrest : base.filter (fun f => Glob.matches ["**/*.{bmp,png,jpg}"] (path f) ≠ true) xs = xs).
    { clear Hout Himg. induction xs as [|x xs IH]; [done|].
      rewrite filter_cons_True by (apply Hno; left).
      f_equal. apply IH. intros f Hf. apply Hno. by right. }
    rewrite Himg, Hrest in Hout. cbn in Hout.
    by apply interleave_nil_l in Hout.
Qed.


(** ** The event loop *)

Lemma loop_idle (O : nat -> io -> option exn) (turns : nat) (m : machine) :
  idle m -> loop O turns m = m.
Proof.
  intros [Hm Hp]. destruct turns; [done|]. cbn. unfold turn.
  by rewrite Hm, Hp.
Qed.

(** Brings a trace to the form [t ++ added]. *)
Ltac split_trace :=
  rewrite <- ?app_assoc; cbn [app];
  eexists; split; [reflexivity|].

Section DeployFacts.

Context (O : nat -> io -> option exn).

Lemma sendCmdAsync_no_ip (this : VitaProject) (cmd : string)
    (callers : list frame) (m : machine) :
  nullish (field (store (world m)) (configuration this) "ip") = true ->
  exec (sendCmdAsync this cmd) "sendCmdAsync" callers m
  = settle "sendCmdAsync" (Some (Thrown errors.ipIsNotDefined)) callers m.
Proof.
  intros Hip. destruct m as [w mt pd n]. cbn in Hip.
  unfold sendCmdAsync. cbn [exec].
  unfold try_catch, generateNetcatClient. step_M. rewrite Hip. cbn.
  destruct w. reflexivity.
Qed.

(** C3. With no device address, [sendCmdAsync] rejects with
    [ipIsNotDefined] and starts nothing; and [deployPipeAsync] opens no
    connection at all, neither to the command port nor to the FTP server:
    once staging is over it rejects with [ipIsNotDefined]. *)
Theorem no_ip_no_connection
    (this : VitaProject) (cmd : string) (files : pipeline) (w : state) (turns : nat) :
  nullish (field (store w) (configuration this) "ip") = true ->
  (trace (world (start "sendCmdAsync" (sendCmdAsync this cmd) w))
     = trace w ++ [Rejected "sendCmdAsync" (Thrown errors.ipIsNotDefined)]
   /\ pending (start "sendCmdAsync" (sendCmdAsync this cmd) w) = [])
  /\ exists added,
       trace (world (run_async O turns "deployPipeAsync" (deployPipeAsync this files) w))
         = trace w ++ added
       /\ Forall (fun ev => opens_connection ev = false) added
       /\ ((2 <= turns)%nat ->
           O 0%nat (StreamEnd (pipe files (dest defaults.tempDir))) = None ->
           idle (run_async O turns "deployPipeAsync" (deployPipeAsync this files) w)
           /\ last added = Some (Rejected "deployPipeAsync" (Thrown errors.ipIsNotDefined))).
Proof.
  intros Hip. split.
  { unfold start. rewrite sendCmdAsync_no_ip by exact Hip. by cbn. }
  unfold run_async, start, deployPipeAsync.
  destruct turns as [|[|turns]].
  - cbn. split_trace. split; [repeat constructor | lia].
  - cbn. destruct (O 0%nat _) eqn:HO; cbn.
    + split_trace. split; [repeat constructor | lia].
    + unfold try_catch, generateNetcatClient. step_M. rewrite Hip. cbn.
      split_trace. split; [repeat constructor | lia].
  - cbn. destruct (O 0%nat _) eqn:HO; cbn.
    + rewrite ?loop_idle by done. cbn.
      split_trace. split; [repeat constructor | discriminate].
    + unfold try_catch, generateNetcatClient. step_M. rewrite Hip. cbn.
      rewrite ?loop_idle by done. cbn.
      split_trace. split; [repeat constructor | done].
Qed.

(** Evaluates one more stretch of a run in which the device has an
    address. *)
Ltac crank Hip Hok Hfail :=
  repeat first
    [ progress cbn
    | rewrite Hok by lia
    | rewrite Hfail
    | progress (unfold try_catch, generateNetcatClient; step_M)
    | rewrite Hip
    | rewrite loop_idle by done ].

(** C4. [deployPipeAsync] changes into [ux0:], then [app], then the id,
    each after the one before has succeeded; when one of them fails the
    function rejects with that failure and no upload is started. *)
Theorem navigation_failure_aborts
    (this : VitaProject) (files : pipeline) (w : state)
    (k : nat) (e : exn) (turns : nat) :
  nullish (field (store w) (configuration this) "ip") = false ->
  (k < 3)%nat ->
  (forall i op, (i < 3 + k)%nat -> O i op = None) ->
  (forall op, O (3 + k)%nat op = Some e) ->
  exists added,
    trace (world (run_async O turns "deployPipeAsync" (deployPipeAsync this files) w))
      = trace w ++ added
    /\ Forall (fun ev => starts_upload ev = false) added
    /\ ((5 + k <= turns)%nat ->
        idle (run_async O turns "deployPipeAsync" (deployPipeAsync this files) w)
        /\ changed_dirs added
           = take (S k) [Some (JStr "ux0:"); Some (JStr "app");
                         field (store w) (configuration this) "id"
                         ?? field (store w) defaults.config "id"]
        /\ (exists dir, IoFailed (FtpCd dir) e ∈ added)
        /\ last added = Some (Rejected "deployPipeAsync" e)).
Proof.
  intros Hip Hk Hok Hfail.
  unfold run_async, start, deployPipeAsync.
  destruct k as [|[|[|k]]]; [| | |lia]; cbn [Nat.add] in Hok, Hfail.
  all: do 8 (destruct turns as [|turns];
             [crank Hip Hok Hfail; split_trace;
              (split; [repeat constructor|]);
              first [ lia | intros _; repeat split; try done;
                            eexists; repeat constructor ] |]).
  all: crank Hip Hok Hfail; split_trace;
       (split; [repeat constructor|]);
       intros _; repeat split; try done; eexists; repeat constructor.
Qed.

(** C1, as the code has it. The [deploy] task awaits [deployAsync], which
    calls [deployPipeAsync] without awaiting it: after one turn of the
    event loop the task is fulfilled, while the staging stream, the first
    step of the deployment, is still in flight and no later step has
    begun. *)
Theorem deploy_task_fulfilled_while_staging
    (E : Env) (s s1 : state) (this : VitaProject) :
  new_VitaProject E None s = (inr this, s1) ->
  exists stream rest,
    trace (world (run_async O 1 "deploy" (task_deploy E) s))
      = trace s1 ++ [Log "Processing system and additional files.";
                     Log "Bundling source files.";
                     Log "Bundling project files to temp directory.";
                     IoStart (StreamEnd stream);
                     Fulfilled "deployAsync";
                     Fulfilled "deploy"]
    /\ microtasks (run_async O 1 "deploy" (task_deploy E) s) = []
    /\ pending (run_async O 1 "deploy" (task_deploy E) s)
       = [(StreamEnd stream, Task "deployPipeAsync" rest [])]
    /\ completed (run_async O 1 "deploy" (task_deploy E) s) = 0%nat.
Proof.
  intros Hnew. unfold run_async, start, task_deploy.
  cbn [exec world]. rewrite Hnew.
  unfold deployAsync, deployPipeAsync, processedSrcFiles, srcFiles.
  cbn [exec world]. step_M. rewrite <- !app_assoc. cbn [app].
  eexists _, _. repeat split; reflexivity.
Qed.

End DeployFacts.

(** ** The properties on the sample project *)





Lemma validateConfiguration_InvalidId_witness :
  (validateConfiguration defaults.config Sample.short_id).1
    = inl (Thrown errors.idDoesNotConformRequirements)
  /\ (validateConfiguration defaults.config Sample.short_id).1
    ≠ inl (Thrown errors.titleIsNotAvailable).
Proof.
  apply (validateConfiguration_InvalidId defaults.config Sample.short_id).
  right. vm_compute. discriminate.
Defined.

Lemma validateConfiguration_null_title_witness :
  (validateConfiguration defaults.config Sample.no_title).1
  = inl (Thrown errors.titleIsNotAvailable).
Proof.
  apply (validateConfiguration_null_title defaults.config Sample.no_title).
  reflexivity.
Defined.

(** C2 as the spec states it fails: a configuration with a good id and an
    empty title passes validation. *)
Lemma validateConfiguration_accepts_empty_title :
  field (store Sample.empty_title) defaults.config "title" = Some (JStr EmptyString)
  /\ (validateConfiguration defaults.config Sample.empty_title).1 = inr tt.
Proof. split; reflexivity. Qed.

Lemma processPipe_only_images_witness :
  (run Sample.env (processPipe (src ["src/**/*"]))).2 = []
  /\ interleave
       (recompress Sample.env <$>
          base.filter (fun f => Glob.matches ["**/*.{bmp,png,jpg}"] (path f) = true)
                      (glob Sample.env ["src/**/*"]))
       (base.filter (fun f => Glob.matches ["**/*.{bmp,png,jpg}"] (path f) ≠ true)
                    (glob Sample.env ["src/**/*"]))
       (run Sample.env (processPipe (src ["src/**/*"]))).1
  /\ (forall f,
        f ∈ base.filter (fun f => Glob.matches ["**/*.{bmp,png,jpg}"] (path f) = true)
                        (glob Sample.env ["src/**/*"]) ->
        Glob.has_image_extension (path f)
        /\ base (recompress Sample.env f) = base f
        /\ relative (recompress Sample.env f) = relative f)
  /\ ((forall f, f ∈ glob Sample.env ["src/**/*"] -> ~ Glob.has_image_extension (path f)) ->
      (run Sample.env (processPipe (src ["src/**/*"]))).1 = glob Sample.env ["src/**/*"]).
Proof.
  apply (processPipe_only_images Sample.env ["src/**/*"]
           (run Sample.env (processPipe (src ["src/**/*"])))).
  unfold processPipe.
  repeat first [ eapply flows_pipe | apply flows_src ]; cbn; try constructor.
  apply interleave_app.
Defined.



Lemma no_ip_no_connection_witness :
  (trace (world (start "sendCmdAsync" (sendCmdAsync Sample.project "destroy") Sample.loaded))
     = [Rejected "sendCmdAsync" (Thrown errors.ipIsNotDefined)]
   /\ pending (start "sendCmdAsync" (sendCmdAsync Sample.project "destroy") Sample.loaded) = [])
  /\ exists added,
       trace (world (run_async Sample.all_succeed 10 "deployPipeAsync"
                       (deployPipeAsync Sample.project (src ["src/**/*"])) Sample.loaded))
         = added
       /\ Forall (fun ev => opens_connection ev = false) added
       /\ ((2 <= 10)%nat ->
           Sample.all_succeed 0%nat (StreamEnd (pipe (src ["src/**/*"]) (dest defaults.tempDir))) = None ->
           idle (run_async Sample.all_succeed 10 "deployPipeAsync"
                   (deployPipeAsync Sample.project (src ["src/**/*"])) Sample.loaded)
           /\ last added = Some (Rejected "deployPipeAsync" (Thrown errors.ipIsNotDefined))).
Proof.
  apply (no_ip_no_connection Sample.all_succeed Sample.project "destroy"
           (src ["src/**/*"]) Sample.loaded 10).
  reflexivity.
Defined.

Lemma navigation_failure_aborts_witness :
  exists added,
    trace (world (run_async Sample.app_missing 12 "deployPipeAsync"
                    (deployPipeAsync Sample.project (src ["src/**/*"])) Sample.with_ip))
      = added
    /\ Forall (fun ev => starts_upload ev = false) added
    /\ ((5 + 1 <= 12)%nat ->
        idle (run_async Sample.app_missing 12 "deployPipeAsync"
                (deployPipeAsync Sample.project (src ["src/**/*"])) Sample.with_ip)
        /\ changed_dirs added = [Some (JStr "ux0:"); Some (JStr "app")]
        /\ (exists dir, IoFailed (FtpCd dir) (LibraryError "550 No such directory") ∈ added)
        /\ last added = Some (Rejected "deployPipeAsync" (LibraryError "550 No such directory"))).
Proof.
  apply (navigation_failure_aborts Sample.app_missing Sample.project
           (src ["src/**/*"]) Sample.with_ip 1
           (LibraryError "550 No such directory") 12).
  - reflexivity.
  - lia.
  - intros i op Hi. unfold Sample.app_missing.
    destruct (Nat.eqb_spec i 4); [lia | reflexivity].
  - intros op. reflexivity.
Defined.

Lemma deploy_task_fulfilled_while_staging_witness :
  exists stream rest,
    trace (world (run_async Sample.all_succeed 1 "deploy" (task_deploy Sample.env) Sample.loaded))
      = trace (new_VitaProject Sample.env None Sample.loaded).2
        ++ [Log "Processing system and additional files.";
            Log "Bundling source files.";
            Log "Bundling project files to temp directory.";
            IoStart (StreamEnd stream);
            Fulfilled "deployAsync";
            Fulfilled "deploy"]
    /\ microtasks (run_async Sample.all_succeed 1 "deploy" (task_deploy Sample.env) Sample.loaded) = []
    /\ pending (run_async Sample.all_succeed 1 "deploy" (task_deploy Sample.env) Sample.loaded)
       = [(StreamEnd stream, Task "deployPipeAsync" rest [])]
    /\ completed (run_async Sample.all_succeed 1 "deploy" (task_deploy Sample.env) Sample.loaded) = 0%nat.
Proof.
  apply (deploy_task_fulfilled_while_staging Sample.all_succeed Sample.env
           Sample.loaded (new_VitaProject Sample.env None Sample.loaded).2
           Sample.project).
  reflexivity.
Defined.

(** * Further properties *)

(** ** Loading, validating, constructing *)

Lemma proto_key_data (props m : jsobj) (v : json) :
  delete "__proto__" props ∪ <["__proto__" := v]> (delete "__proto__" props ∪ m)
  = <["__proto__" := v]> (delete "__proto__" props ∪ m).
Proof.
  rewrite <- insert_union_r by apply lookup_delete_eq.
  by rewrite (map_union_assoc (delete "__proto__" props)), map_union_idemp.
Qed.

Lemma assign_proto_own_data (o : object) (v w : json) :
  own o !! "__proto__" = Some w ->
  assign_proto o v = Object (<["__proto__" := v]> (own o)) (proto o).
Proof. unfold assign_proto. by intros ->. Qed.

Lemma assign_all_idemp (o : object) (props : jsobj) :
  reassignable props -> assign_all (assign_all o props) props = assign_all o props.
Proof.
  unfold reassignable, assign_all. intros Hre.
  set (d := delete "__proto__" props).
  assert (Hdd : forall x : jsobj, d ∪ (d ∪ x) = d ∪ x).
  { intros x. by rewrite (map_union_assoc d), map_union_idemp. }
  destruct (props !! "__proto__") as [v|]; cbn [own proto]; [|by rewrite Hdd].
  assert (Hdata : forall p,
            assign_proto (Object (d ∪ <["__proto__" := v]> (d ∪ own o)) p) v
            = Object (<["__proto__" := v]> (d ∪ own o)) p).
  { intros p. unfold d. rewrite proto_key_data.
    erewrite assign_proto_own_data by apply lookup_insert_eq.
    cbn. by rewrite insert_insert_eq. }
  assert (Hset : (d ∪ own o) !! "__proto__" = None ->
            forall p,
            (p = ObjectPrototype \/ (exists w, p = Inherits w /\
               match w with JObj m => m !! "__proto__" = None | _ => True end)) ->
            assign_proto
              (Object (d ∪ own (set_prototype (Object (d ∪ own o) p) v))
                      (proto (set_prototype (Object (d ∪ own o) p) v))) v
            = set_prototype (Object (d ∪ own o) p) v).
  { intros Hown p Hp. destruct v as [| | | | l | m]; try done; cbn; rewrite Hdd;
      unfold assign_proto; cbn; rewrite Hown; try (by rewrite Hre).
    all: destruct Hp as [->|(w & -> & Hw)]; [done|];
      destruct w; try done; by rewrite Hw. }
  remember (assign_proto (Object (d ∪ own o) (proto o)) v) as r eqn:Hr.
  unfold assign_proto in Hr. cbn [own proto] in Hr.
  destruct ((d ∪ own o) !! "__proto__") eqn:Hown; [subst r; apply Hdata|].
  destruct (proto o) as [| |w] eqn:Hproto.
  - subst r. apply Hset; [done|]. by left.
  - subst r. apply Hdata.
  - destruct w as [| | | | l | m]; try (subst r; apply Hset; [done|]; right; by eexists).
    destruct (m !! "__proto__") eqn:Hm; subst r; [apply Hdata|].
    apply Hset; [done|]. right. by eexists.
Qed.

Section LoadingFailures.

Context (E : Env).

(** X1. Without the descriptor file [readConfiguration] throws
    [projectConfigFileIsMissing]: it has asked for the file once, has read
    nothing, and the default record is untouched. *)
Theorem readConfiguration_missing_file (filePath : string) (s : state) :
  existsSync E filePath = false ->
  readConfiguration E filePath s
  = (inl (Thrown errors.projectConfigFileIsMissing),
     State (store s)
           (trace s ++ [Log "Reading configuration..."; Exists filePath false])).
Proof.
  intros Hex. unfold readConfiguration, fs_existsSync. step_M.
  rewrite Hex. cbn. by rewrite <- app_assoc.
Qed.

(** X2. A file that cannot be read, or that does not parse, makes
    [readConfiguration] throw the library's error, and the default record
    keeps its values. *)
Theorem readConfiguration_unreadable (filePath : string) (s : state) (e : exn) :
  existsSync E filePath = true ->
  readFileSync E filePath = inl e
  \/ (exists text, readFileSync E filePath = inr text /\ JSON_parse E text = inl e) ->
  (readConfiguration E filePath s).1 = inl e
  /\ store (readConfiguration E filePath s).2 = store s.
Proof.
  intros Hex H. unfold readConfiguration, fs_existsSync, fs_readFileSync.
  step_M. rewrite Hex. cbn.
  destruct H as [Hrd | (text & Hrd & Hparse)]; rewrite Hrd; cbn.
  - done.
  - rewrite Hparse. done.
Qed.

(** X3. Loading the same descriptor a second time changes nothing in the
    store, unless the descriptor has a [__proto__] key that holds [null] or
    an object with a [__proto__] key of its own. *)
Theorem readConfiguration_twice (filePath text : string) (parsed : json) (s : state) :
  existsSync E filePath = true ->
  readFileSync E filePath = inr text ->
  JSON_parse E text = inr parsed ->
  reassignable (own_enumerable parsed) ->
  exists s1 s2,
    readConfiguration E filePath s = (inr defaults.config, s1)
    /\ readConfiguration E filePath s1 = (inr defaults.config, s2)
    /\ store s2 = store s1.
Proof.
  intros Hex Hrd Hparse Hre.
  destruct (readConfiguration_spec E _ _ _ s Hex Hrd Hparse) as (s1 & Hrun1 & Hs1 & Hobj1).
  destruct (readConfiguration_spec E _ _ _ s1 Hex Hrd Hparse) as (s2 & Hrun2 & Hs2 & _).
  exists s1, s2. split; [exact Hrun1|]. split; [exact Hrun2|].
  rewrite Hs2, Hobj1, assign_all_idemp by exact Hre.
  rewrite Hs1. apply insert_insert_eq.
Qed.

(** The condition of X3 is needed: [{"__proto__": null}] takes the
    prototype away on the first load and, the setter being gone with it,
    becomes a property of the record on the second. *)
Lemma readConfiguration_twice_null_proto :
  deref (store (readConfiguration (Sample.env_with Sample.descriptor_null_proto)
                  "./lpp-vita-project.json" Sample.loaded).2) defaults.config
    !! "__proto__" = None
  /\ deref (store (readConfiguration (Sample.env_with Sample.descriptor_null_proto)
                     "./lpp-vita-project.json"
                     (readConfiguration (Sample.env_with Sample.descriptor_null_proto)
                        "./lpp-vita-project.json" Sample.loaded).2).2) defaults.config
       !! "__proto__" = Some JNull.
Proof. split; reflexivity. Qed.

End LoadingFailures.

(** X4. [validateConfiguration] accepts exactly the configurations whose [id]
    is not null and has [length] 9 and whose [title] is not null. *)
Theorem validateConfiguration_accepts_iff (c : loc) (s : state) :
  (validateConfiguration c s).1 = inr tt
  <-> nullish (field (store s) c "id") = false
      /\ opt_prop (field (store s) c "id") "length" = Some (JNum 9)
      /\ nullish (field (store s) c "title") = false.
Proof.
  unfold validateConfiguration. step_M.
  destruct (nullish (field (store s) c "id")) eqn:Hid; cbn.
  { split; [discriminate | intros (? & _); discriminate]. }
  destruct (strict_ne_num (opt_prop (field (store s) c "id") "length") 9) eqn:Hlen; cbn.
  { apply strict_ne_num_true in Hlen.
    split; [discriminate | intros (_ & ? & _); done]. }
  apply strict_ne_num_false in Hlen.
  destruct (nullish (field (store s) c "title")) eqn:Htitle; cbn.
  - split; [discriminate | intros (_ & _ & ?); discriminate].
  - split; [done | reflexivity].
Qed.

Section Constructor.

Context (E : Env).

(** The steps of the constructor, when the descriptor is there and
    parses: the default record is updated, then validated, then the files
    are checked. *)
Lemma new_VitaProject_loaded
    (configurationFilePath : option string) (text : string) (parsed : json) (s : state) :
  let filePath := default defaults.projectConfigurationFilePath configurationFilePath in
  existsSync E filePath = true ->
  readFileSync E filePath = inr text ->
  JSON_parse E text = inr parsed ->
  exists s1,
    readConfiguration E filePath s = (inr defaults.config, s1)
    /\ new_VitaProject E configurationFilePath s
       = match validateConfiguration defaults.config s1 with
         | (inl e, s2) => (inl e, s2)
         | (inr _, s2) =>
             match checkRequiredFiles E {| configuration := defaults.config |} s2 with
             | (inl e, s3) => (inl e, s3)
             | (inr _, s3) => (inr {| configuration := defaults.config |}, s3)
             end
         end.
Proof.
  intros filePath Hex Hrd Hparse.
  destruct (readConfiguration_spec E _ _ _ s Hex Hrd Hparse) as (s1 & Hrun & _).
  exists s1. split; [exact Hrun|].
  unfold new_VitaProject. fold filePath.
  unfold mbind at 1, M_bind at 1. rewrite Hrun.
  unfold mbind, M_bind, mret, M_ret. cbn [configuration].
  destruct (validateConfiguration defaults.config s1) as [[e|[]] s2]; [reflexivity|].
  by destruct (checkRequiredFiles E _ s2) as [[e|[]] s3].
Qed.

End Constructor.

Lemma validateConfiguration_store (c : loc) (s : state) :
  store (validateConfiguration c s).2 = store s.
Proof.
  unfold validateConfiguration. step_M.
  destruct (nullish (field (store s) c "id") || _); cbn; [done|].
  by destruct (nullish (field (store s) c "title")).
Qed.

Lemma validateConfiguration_ok_inv (c : loc) (s s' : state) :
  validateConfiguration c s = (inr tt, s') ->
  store s' = store s
  /\ nullish (field (store s) c "id") = false
  /\ opt_prop (field (store s) c "id") "length" = Some (JNum 9)
  /\ nullish (field (store s) c "title") = false.
Proof.
  intros H. split.
  - rewrite <- (validateConfiguration_store c s). by rewrite H.
  - revert H. unfold validateConfiguration. step_M.
    destruct (nullish (field (store s) c "id")) eqn:Hid; cbn; [discriminate|].
    destruct (strict_ne_num _ 9) eqn:Hlen; cbn; [discriminate|].
    apply strict_ne_num_false in Hlen.
    destruct (nullish (field (store s) c "title")) eqn:Htitle; [discriminate|].
    done.
Qed.

Lemma checkRequiredFiles_store (E : Env) (this : VitaProject) (s : state) :
  store (checkRequiredFiles E this s).2 = store s.
Proof.
  unfold checkRequiredFiles, fs_existsSync. step_M.
  repeat match goal with
         | |- context [existsSync E ?p] => destruct (existsSync E p); cbn
         end; reflexivity.
Qed.

Lemma checkRequiredFiles_ok_inv (E : Env) (this : VitaProject) (s s' : state) :
  checkRequiredFiles E this s = (inr tt, s') ->
  store s' = store s
  /\ existsSync E (template (field (store s) (configuration this) "srcDir") +:+ "/") = true
  /\ existsSync E (template (field (store s) (configuration this) "srcDir")
                   +:+ "/" +:+ "eboot.bin") = true
  /\ existsSync E (template (field (store s) (configuration this) "srcDir")
                   +:+ "/" +:+ "index.lua") = true.
Proof.
  intros H. split.
  - rewrite <- (checkRequiredFiles_store E this s). by rewrite H.
  - revert H.
    unfold checkRequiredFiles, fs_existsSync,
      defaults.ebootFileName, defaults.indexFileName.
    step_M.
    repeat match goal with
           | |- context [existsSync E ?p] =>
               let H := fresh "H" in destruct (existsSync E p) eqn:H; cbn
           end; try discriminate.
    done.
Qed.

Section ConstructorFacts.

Context (E : Env).

Lemma new_VitaProject_ok_inv
    (configurationFilePath : option string) (s s' : state) (this : VitaProject) :
  new_VitaProject E configurationFilePath s = (inr this, s') ->
  configuration this = defaults.config
  /\ nullish (field (store s') defaults.config "id") = false
  /\ opt_prop (field (store s') defaults.config "id") "length" = Some (JNum 9)
  /\ nullish (field (store s') defaults.config "title") = false
  /\ existsSync E (template (field (store s') defaults.config "srcDir") +:+ "/") = true
  /\ existsSync E (template (field (store s') defaults.config "srcDir")
                   +:+ "/" +:+ "eboot.bin") = true
  /\ existsSync E (template (field (store s') defaults.config "srcDir")
                   +:+ "/" +:+ "index.lua") = true.
Proof.
  intros H.
  set (filePath := default defaults.projectConfigurationFilePath configurationFilePath).
  destruct (existsSync E filePath) eqn:Hex.
  2: { revert H. unfold new_VitaProject, readConfiguration, fs_existsSync.
       step_M. fold filePath. rewrite Hex. cbn. discriminate. }
  destruct (readFileSync E filePath) as [e|text] eqn:Hrd.
  { revert H. unfold new_VitaProject, readConfiguration, fs_existsSync, fs_readFileSync.
    step_M. fold filePath. rewrite Hex. cbn. rewrite Hrd. cbn. discriminate. }
  destruct (JSON_parse E text) as [e|parsed] eqn:Hparse.
  { revert H. unfold new_VitaProject, readConfiguration, fs_existsSync, fs_readFileSync.
    step_M. fold filePath. rewrite Hex. cbn. rewrite Hrd. cbn. rewrite Hparse. cbn.
    discriminate. }
  destruct (new_VitaProject_loaded E configurationFilePath text parsed s Hex Hrd Hparse)
    as (s1 & _ & Hnew).
  rewrite Hnew in H. clear Hnew.
  destruct (validateConfiguration defaults.config s1) as [[e|[]] s2] eqn:Hval;
    [discriminate|].
  destruct (checkRequiredFiles E _ s2) as [[e|[]] s3] eqn:Hchk; [discriminate|].
  injection H as <- <-.
  apply validateConfiguration_ok_inv in Hval as (Hs2 & Hid & Hlen & Htitle).
  apply checkRequiredFiles_ok_inv in Hchk as (Hs3 & Hdir & Heboot & Hindex).
  cbn [configuration] in *. rewrite Hs3, Hs2. rewrite Hs2 in Hdir, Heboot, Hindex.
  done.
Qed.

(** X5. A project that the constructor returns refers to [defaults.config],
    has an [id] of length 9 and a [title], and its source directory,
    [eboot.bin] and [index.lua] were found. *)
Theorem new_VitaProject_valid
    (configurationFilePath : option string) (s s' : state) (this : VitaProject) :
  new_VitaProject E configurationFilePath s = (inr this, s') ->
  configuration this = defaults.config
  /\ nullish (field (store s') defaults.config "id") = false
  /\ opt_prop (field (store s') defaults.config "id") "length" = Some (JNum 9)
  /\ nullish (field (store s') defaults.config "title") = false
  /\ existsSync E (template (field (store s') defaults.config "srcDir") +:+ "/") = true
  /\ existsSync E (template (field (store s') defaults.config "srcDir")
                   +:+ "/" +:+ "eboot.bin") = true
  /\ existsSync E (template (field (store s') defaults.config "srcDir")
                   +:+ "/" +:+ "index.lua") = true.
Proof. apply new_VitaProject_ok_inv. Qed.

(** X6. When the descriptor parses but the configuration it gives is not
    valid, the constructor throws, having already assigned the descriptor's
    properties to the default record, which keeps them, and without asking
    for the source directory. *)
Theorem new_VitaProject_invalid
    (configurationFilePath : option string) (text : string) (m : jsobj) (s : state) :
  existsSync E (default defaults.projectConfigurationFilePath configurationFilePath) = true ->
  readFileSync E (default defaults.projectConfigurationFilePath configurationFilePath)
    = inr text ->
  JSON_parse E text = inr (JObj m) ->
  nullish (get (assign_all (lookup_object (store s) defaults.config) m) "id") = true
  \/ opt_prop (get (assign_all (lookup_object (store s) defaults.config) m) "id") "length"
     ≠ Some (JNum 9)
  \/ nullish (get (assign_all (lookup_object (store s) defaults.config) m) "title") = true ->
  (exists e, (new_VitaProject E configurationFilePath s).1 = inl (Thrown e))
  /\ lookup_object (store (new_VitaProject E configurationFilePath s).2) defaults.config
     = assign_all (lookup_object (store s) defaults.config) m
  /\ (forall k v, k ≠ "__proto__" -> m !! k = Some v ->
        deref (store (new_VitaProject E configurationFilePath s).2) defaults.config !! k
        = Some v)
  /\ checked (trace (new_VitaProject E configurationFilePath s).2)
     = checked (trace s)
       ++ [default defaults.projectConfigurationFilePath configurationFilePath].
Proof.
  intros Hex Hrd Hparse Hbad.
  set (merged := assign_all (lookup_object (store s) defaults.config) m) in *.
  assert (Hrun : new_VitaProject E configurationFilePath s
                 = let s1 := State (<[defaults.config := merged]> (store s))
                               (trace s ++ [Log "Reading configuration...";
                                            Exists (default defaults.projectConfigurationFilePath
                                                      configurationFilePath) true;
                                            Read (default defaults.projectConfigurationFilePath
                                                    configurationFilePath);
                                            Log "Configuration readed successfully."]) in
                   match validateConfiguration defaults.config s1 with
                   | (inl e, s2) => (inl e, s2)
                   | (inr _, s2) =>
                       match checkRequiredFiles E {| configuration := defaults.config |} s2 with
                       | (inl e, s3) => (inl e, s3)
                       | (inr _, s3) => (inr {| configuration := defaults.config |}, s3)
                       end
                   end).
  { unfold new_VitaProject, readConfiguration, fs_existsSync, fs_readFileSync,
      Object_assign.
    step_M. rewrite Hex. cbn. rewrite Hrd. cbn. rewrite Hparse. cbn.
    rewrite <- !app_assoc. cbn [app]. fold merged.
    destruct (validateConfiguration defaults.config _) as [[e|[]] s2]; [reflexivity|].
    by destruct (checkRequiredFiles E _ s2) as [[e|[]] s3]. }
  rewrite Hrun. clear Hrun. cbn zeta.
  assert (Hfield : forall k,
            field (<[defaults.config := merged]> (store s)) defaults.config k
            = get merged k).
  { intros k. unfold field. by rewrite lookup_object_insert. }
  assert (Hfail : exists e,
            validateConfiguration defaults.config
              (State (<[defaults.config := merged]> (store s))
                 (trace s ++ [Log "Reading configuration...";
                              Exists (default defaults.projectConfigurationFilePath
                                        configurationFilePath) true;
                              Read (default defaults.projectConfigurationFilePath
                                      configurationFilePath);
                              Log "Configuration readed successfully."]))
            = (inl (Thrown e),
               State (<[defaults.config := merged]> (store s))
                 ((trace s ++ [Log "Reading configuration...";
                               Exists (default defaults.projectConfigurationFilePath
                                         configurationFilePath) true;
                               Read (default defaults.projectConfigurationFilePath
                                       configurationFilePath);
                               Log "Configuration readed successfully."])
                  ++ [Log "Validating configuration..."]))).
  { unfold validateConfiguration. step_M. rewrite !Hfield.
    destruct (nullish (get merged "id")) eqn:Hid; cbn; [by eexists|].
    destruct (strict_ne_num (opt_prop (get merged "id") "length") 9) eqn:Hlen; cbn;
      [by eexists|].
    apply strict_ne_num_false in Hlen.
    destruct Hbad as [?|[?|Htitle]]; [done..|].
    rewrite Hfield, Htitle. by eexists. }
  destruct Hfail as (e & ->). cbn.
  split; [by eexists|]. split; [apply lookup_object_insert|]. split.
  - intros k v Hk Hv. unfold deref. rewrite lookup_object_insert.
    unfold merged. rewrite own_assign_all by done.
    by apply lookup_union_Some_l.
  - rewrite !checked_app. cbn. by rewrite app_nil_r.
Qed.

End ConstructorFacts.

Lemma validateConfiguration_accepts (c : loc) (s : state) :
  nullish (field (store s) c "id") = false ->
  opt_prop (field (store s) c "id") "length" = Some (JNum 9) ->
  nullish (field (store s) c "title") = false ->
  exists s', validateConfiguration c s = (inr tt, s') /\ store s' = store s.
Proof.
  intros Hid Hlen Htitle. unfold validateConfiguration. step_M.
  rewrite Hid, Hlen. cbn. rewrite Htitle. cbn. by eexists.
Qed.

Lemma checkRequiredFiles_accepts (E : Env) (this : VitaProject) (s : state) :
  existsSync E (template (field (store s) (configuration this) "srcDir") +:+ "/") = true ->
  existsSync E (template (field (store s) (configuration this) "srcDir")
                +:+ "/" +:+ "eboot.bin") = true ->
  existsSync E (template (field (store s) (configuration this) "srcDir")
                +:+ "/" +:+ "index.lua") = true ->
  exists s', checkRequiredFiles E this s = (inr tt, s') /\ store s' = store s.
Proof.
  intros Hdir Heboot Hindex.
  unfold checkRequiredFiles, fs_existsSync,
    defaults.ebootFileName, defaults.indexFileName.
  step_M. rewrite Hdir. cbn. rewrite Heboot. cbn. rewrite Hindex. cbn.
  by eexists.
Qed.

Section MoreConstructorFacts.

Context (E : Env).

(** X7. A descriptor without properties of its own ([null], a number, a
    boolean, an empty object) is accepted: in a freshly loaded script the
    constructor returns the default project, provided [src/] and its two
    files are there. *)
Theorem new_VitaProject_empty_descriptor (text : string) (parsed : json) (s : state) :
  store s = initial_heap ->
  existsSync E "./lpp-vita-project.json" = true ->
  readFileSync E "./lpp-vita-project.json" = inr text ->
  JSON_parse E text = inr parsed ->
  own_enumerable parsed = ∅ ->
  existsSync E "src/" = true ->
  existsSync E "src/eboot.bin" = true ->
  existsSync E "src/index.lua" = true ->
  exists s',
    new_VitaProject E None s = (inr {| configuration := defaults.config |}, s')
    /\ deref (store s') defaults.config = defaults.config_literal.
Proof.
  intros Hs Hex Hrd Hparse Hown Hdir Heboot Hindex.
  destruct (new_VitaProject_loaded E None text parsed s Hex Hrd Hparse)
    as (s1 & Hrun & Hnew).
  destruct (readConfiguration_spec E _ _ _ s Hex Hrd Hparse)
    as (s1' & Hrun' & _ & Hobj).
  change (readConfiguration E "./lpp-vita-project.json" s = (inr defaults.config, s1)) in Hrun.
  rewrite Hrun in Hrun'. injection Hrun' as <-.
  rewrite Hown, Hs, assign_all_plain in Hobj by done.
  rewrite (left_id_L ∅ (∪)) in Hobj.
  change (lookup_object initial_heap defaults.config)
    with (Object defaults.config_literal ObjectPrototype) in Hobj.
  cbn [own proto] in Hobj.
  destruct (validateConfiguration_accepts defaults.config s1) as (s2 & Hval & Hs2);
    [unfold field; by rewrite Hobj..|].
  destruct (checkRequiredFiles_accepts E {| configuration := defaults.config |} s2)
    as (s3 & Hchk & Hs3);
    [cbn [configuration]; unfold field; by rewrite Hs2, Hobj..|].
  rewrite Hnew, Hval, Hchk. exists s3. split; [reflexivity|].
  unfold deref. by rewrite Hs3, Hs2, Hobj.
Qed.

End MoreConstructorFacts.

(** ** Packaging *)

Section BuildFacts.

Context (E : Env).

(** X8. When the metadata tool fails, [build] throws the tool's error at
    once: no source file has been looked at and no pipeline is made. *)
Theorem build_tool_failure (this : VitaProject) (s : state) (e : exn) :
  execSync E (mksfoex_command (field (store s) (configuration this) "id")
                              (field (store s) (configuration this) "title")
                              (tmpdir E +:+ "/param.sfo")) = Some e ->
  build E this s
  = (inl e,
     State (store s)
           (trace s ++
            [Log "Assembling project files...";
             Log ("Generating sfo file to path: " +:+ tmpdir E +:+ "/param.sfo");
             Exec (mksfoex_command (field (store s) (configuration this) "id")
                                   (field (store s) (configuration this) "title")
                                   (tmpdir E +:+ "/param.sfo"))])).
Proof.
  intros Htool.
  unfold build, bundledFiles, generatedSfoFile, generateSfoFile, child_process_execSync.
  step_M. rewrite Htool. cbn. by rewrite <- !app_assoc.
Qed.

(** X9. The fallback [?? defaults.config.outDir] reads the very object that
    [this.configuration] is: for an id, a title and a source directory that
    convert to plain text, with an output directory that is falsy
    (undefined, null, false, 0 or the empty string) [build] throws at
    [gulp.dest], after the metadata tool has run.  With any other output
    directory [build] returns its pipeline, which writes nothing when the
    directory is not a string. *)
Theorem build_without_outDir (s : state) :
  convertible (field (store s) defaults.config "id") = true ->
  convertible (field (store s) defaults.config "title") = true ->
  convertible (field (store s) defaults.config "srcDir") = true ->
  execSync E (mksfoex_command (field (store s) defaults.config "id")
                              (field (store s) defaults.config "title")
                              (tmpdir E +:+ "/param.sfo")) = None ->
  if falsy (field (store s) defaults.config "outDir")
  then exists origin,
         (build E {| configuration := defaults.config |} s).1 = inl (LibraryError origin)
         /\ Exec (mksfoex_command (field (store s) defaults.config "id")
                                  (field (store s) defaults.config "title")
                                  (tmpdir E +:+ "/param.sfo"))
            ∈ trace (build E {| configuration := defaults.config |} s).2
  else exists p,
         (build E {| configuration := defaults.config |} s).1 = inr p
         /\ ((forall d, field (store s) defaults.config "outDir" ≠ Some (JStr d)) ->
             forall out, flows E p out -> out.1 = []).
Proof.
  intros _ _ _ Htool.
  unfold build, bundledFiles, generatedSfoFile, generateSfoFile,
    child_process_execSync, processedSrcFiles, srcFiles, gulp_dest.
  step_M. rewrite Htool. cbn.
  assert (Hnull : forall a : option json, nullish a = true -> falsy (a ?? a) = true).
  { intros [[]|]; done. }
  assert (Hset : forall a : option json, nullish a = false -> a ?? a = a).
  { intros a Ha. unfold coalesce. by rewrite Ha. }
  destruct (nullish (field (store s) defaults.config "outDir")) eqn:Hn.
  - rewrite (Hnull _ Hn).
    assert (Hf : falsy (field (store s) defaults.config "outDir") = true).
    { by destruct (field (store s) defaults.config "outDir") as [[]|]. }
    rewrite Hf. cbn. eexists. split; [reflexivity|]. set_solver.
  - rewrite (Hset _ Hn).
    destruct (falsy (field (store s) defaults.config "outDir")) eqn:Hf; cbn.
    + eexists. split; [reflexivity|]. set_solver.
    + destruct (field (store s) defaults.config "outDir") as [[| | |d| |]|] eqn:Hout;
        try discriminate; cbn; eexists; (split; [reflexivity|]); intros Hstr out Hflow;
        try (by destruct (Hstr d));
        inversion Hflow as [| ? ? ? ? _ Hdest |]; subst; by inversion Hdest.
Qed.

(** X10. [sourceFiles] and [srcFiles] name the same files unless [srcDir] is
    null or undefined: then [sourceFiles] falls back on [src], while
    [srcFiles] globs under the directory called [null] or [undefined]. *)
Theorem sourceFiles_srcFiles (s : state) :
  let this := {| configuration := defaults.config |} in
  let srcDir := field (store s) defaults.config "srcDir" in
  (srcFiles this s).1 = inr (src [template srcDir +:+ "/**/*"])
  /\ (sourceFiles this s).1
     = inr (src [(if nullish srcDir then "src" else template srcDir) +:+ "/**/*"]).
Proof.
  intros this srcDir. unfold srcFiles, sourceFiles. step_M. fold srcDir.
  split; [reflexivity|].
  unfold coalesce. by destruct (nullish srcDir).
Qed.

End BuildFacts.

(** ** The device *)

Lemma coalesce_same (a c : option json) : a ?? a ?? c = a ?? c.
Proof. unfold coalesce. by destruct (nullish a). Qed.

Lemma coalesce_self (a : option json) : a ?? a = a.
Proof. unfold coalesce. by destruct (nullish a). Qed.

Lemma coalesce_set (a b : option json) : nullish a = false -> a ?? b = a.
Proof. unfold coalesce. by intros ->. Qed.

Lemma generateNetcatClient_aliased (s : state) :
  generateNetcatClient {| configuration := defaults.config |} s
  = (if nullish (field (store s) defaults.config "ip")
     then inl (Thrown errors.ipIsNotDefined)
     else inr {| nc_addr := field (store s) defaults.config "ip";
                 nc_port := opt_prop (field (store s) defaults.config "ports") "cmd"
                            ?? Some (JNum 1338);
                 nc_retry := 5000 |},
     s).
Proof.
  unfold generateNetcatClient. step_M.
  destruct (nullish (field (store s) defaults.config "ip")); cbn; [reflexivity|].
  by rewrite coalesce_same.
Qed.

(** X11. For a project that refers to [defaults.config], the command port is
    [ports.cmd] when the configuration has one, and 1338 otherwise,
    whatever the default record held before the load; the client is refused
    when there is no address. *)
Theorem generateNetcatClient_port (s : state) :
  generateNetcatClient {| configuration := defaults.config |} s
  = (if nullish (field (store s) defaults.config "ip")
     then inl (Thrown errors.ipIsNotDefined)
     else inr {| nc_addr := field (store s) defaults.config "ip";
                 nc_port := opt_prop (field (store s) defaults.config "ports") "cmd"
                            ?? Some (JNum 1338);
                 nc_retry := 5000 |},
     s).
Proof. apply generateNetcatClient_aliased. Qed.

(** Evaluates a run of the event loop turn by turn, leaving the
    configuration and the outcomes of the operations as they are written. *)
Ltac unroll_in c :=
  eval lazy [start turn exec settle observe
        world microtasks pending completed task_fn task_code task_callers
        deployPipeAsync sendCmdAsync clearTempDirectoryAsync sleepAsync
        deployAsync processedSrcFiles srcFiles processPipe
        task_deploy task_test_cmd task_build task_default
        generateNetcatClient try_catch logger emit read_field throw
        mbind M_bind mret M_ret store trace configuration
        nc_addr nc_port nc_retry] in c.

Ltac first_turn :=
  lazymatch goal with
  | |- context [run_async ?O ?n ?fn ?c ?w] =>
      change (run_async O n fn c w) with (loop O n (start fn c w));
      let r := unroll_in (start fn c w) in
      change (start fn c w) with r;
      cbv beta iota
  end.

Ltac next_turn :=
  lazymatch goal with
  | |- context [loop ?O (S ?n) ?m] =>
      change (loop O (S n) m)
        with (match turn O m with Some m' => loop O n m' | None => m end);
      let r := unroll_in (turn O m) in
      change (turn O m) with r;
      cbv beta iota
  end.

Ltac advance Hip Hok Hfail :=
  first_turn;
  repeat first
    [ rewrite Hok by lia; cbv beta iota
    | rewrite Hfail; cbv beta iota
    | rewrite Hip; cbv beta iota
    | rewrite !app_nil_l
    | rewrite loop_idle by (split; reflexivity)
    | next_turn ];
  rewrite ?coalesce_same, ?coalesce_self;
  try rewrite !(coalesce_set _ _ Hip).

Lemma FtpClose_elem_of (l : list event) :
  FtpClose ∈ l
  <-> existsb (fun ev => match ev with FtpClose => true | _ => false end) l = true.
Proof.
  induction l as [|ev l IH]; cbn.
  - rewrite elem_of_nil. split; [done | discriminate].
  - rewrite elem_of_cons, IH, orb_true_iff.
    destruct ev; split; intros [?|?]; try discriminate; auto.
Qed.

Ltac evaluate_run Hip Hok Hfail :=
  lazymatch goal with
  | |- context [run_async ?O ?n ?fn ?c ?w] =>
      let H := fresh "Hrun" in
      eassert (H : run_async O n fn c w = _);
      [ advance Hip Hok Hfail; reflexivity
      | rewrite !H; clear H; cbn [world trace store microtasks pending] ]
  end.

Section DeviceFacts.

Context (O : nat -> io -> option exn).

(** X12. With an address, [sendCmdAsync] sends the command and a newline once,
    to the configured address and command port, and settles as that
    operation does. *)
Theorem sendCmdAsync_sends_once (cmd : string) (w : state) (turns : nat) :
  nullish (field (store w) defaults.config "ip") = false ->
  (1 <= turns)%nat ->
  let send := NetcatSend (field (store w) defaults.config "ip")
                (opt_prop (field (store w) defaults.config "ports") "cmd" ?? Some (JNum 1338))
                5000 (cmd +:+ String "010"%char EmptyString) in
  let m := run_async O turns "sendCmdAsync"
             (sendCmdAsync {| configuration := defaults.config |} cmd) w in
  idle m
  /\ trace (world m)
     = trace w ++ match O 0%nat send with
                  | None => [IoStart send; IoDone send; Fulfilled "sendCmdAsync"]
                  | Some e => [IoStart send; IoFailed send e; Rejected "sendCmdAsync" e]
                  end.
Proof.
  intros Hip Hturns send m. subst m.
  destruct turns as [|turns]; [lia|].
  unfold run_async, start, sendCmdAsync. cbn [exec world].
  unfold try_catch. rewrite generateNetcatClient_aliased. rewrite Hip.
  cbn. fold send.
  destruct (O 0%nat send); cbn; rewrite loop_idle by done; cbn;
    rewrite <- !app_assoc; done.
Qed.

(** X13. When every operation succeeds, [deployPipeAsync] stages, stops the
    application, connects, changes directory three times, uploads, closes
    the connection, relaunches and cleans up, in this order, and is then
    fulfilled. *)
Theorem deployPipeAsync_success (files : pipeline) (w : state) (turns : nat) :
  nullish (field (store w) defaults.config "ip") = false ->
  (forall i op, O i op = None) ->
  (12 <= turns)%nat ->
  exists added,
    trace (world (run_async O turns "deployPipeAsync"
                    (deployPipeAsync {| configuration := defaults.config |} files) w))
      = trace w ++ added
    /\ idle (run_async O turns "deployPipeAsync"
               (deployPipeAsync {| configuration := defaults.config |} files) w)
    /\ actions added
       = [IoStart (StreamEnd (pipe files (dest ".temp")));
          IoStart (NetcatSend (field (store w) defaults.config "ip")
                     (opt_prop (field (store w) defaults.config "ports") "cmd"
                      ?? Some (JNum 1338))
                     5000 ("destroy" +:+ String "010"%char EmptyString));
          IoStart (FtpAccess (field (store w) defaults.config "ip")
                     (opt_prop (field (store w) defaults.config "ports") "ftp"
                      ?? Some (JNum 1337)));
          IoStart (FtpCd (Some (JStr "ux0:")));
          IoStart (FtpCd (Some (JStr "app")));
          IoStart (FtpCd (field (store w) defaults.config "id"));
          IoStart (FtpUploadFromDir ".temp");
          FtpClose;
          IoStart (NetcatSend (field (store w) defaults.config "ip")
                     (opt_prop (field (store w) defaults.config "ports") "cmd"
                      ?? Some (JNum 1338))
                     5000 (("launch " +:+ template (field (store w) defaults.config "id"))
                           +:+ String "010"%char EmptyString));
          IoStart (Del ".temp")]
    /\ last added = Some (Fulfilled "deployPipeAsync").
Proof.
  intros Hip Hok Hturns.
  do 12 (destruct turns as [|turns]; [lia|]). clear Hturns.
  destruct w as [h t]. change (store (State h t)) with h in *.
  change (trace (State h t)) with t.
  evaluate_run Hip Hok Hok. split_trace.
  repeat split; reflexivity.
Qed.

(** X14. When the [k]-th of the nine operations of [deployPipeAsync] is the
    first to fail, the function rejects with that failure having started
    the operations up to that one and no other; the FTP connection is
    closed only if the failure comes after the upload. *)
Theorem deployPipeAsync_aborts
    (files : pipeline) (w : state) (k : nat) (e : exn) (turns : nat) :
  nullish (field (store w) defaults.config "ip") = false ->
  (k < 9)%nat ->
  (forall i op, (i < k)%nat -> O i op = None) ->
  (forall op, O k op = Some e) ->
  (12 <= turns)%nat ->
  exists added,
    trace (world (run_async O turns "deployPipeAsync"
                    (deployPipeAsync {| configuration := defaults.config |} files) w))
      = trace w ++ added
    /\ idle (run_async O turns "deployPipeAsync"
               (deployPipeAsync {| configuration := defaults.config |} files) w)
    /\ started added
       = take (S k)
           [StreamEnd (pipe files (dest ".temp"));
            NetcatSend (field (store w) defaults.config "ip")
              (opt_prop (field (store w) defaults.config "ports") "cmd"
               ?? Some (JNum 1338))
              5000 ("destroy" +:+ String "010"%char EmptyString);
            FtpAccess (field (store w) defaults.config "ip")
              (opt_prop (field (store w) defaults.config "ports") "ftp"
               ?? Some (JNum 1337));
            FtpCd (Some (JStr "ux0:"));
            FtpCd (Some (JStr "app"));
            FtpCd (field (store w) defaults.config "id");
            FtpUploadFromDir ".temp";
            NetcatSend (field (store w) defaults.config "ip")
              (opt_prop (field (store w) defaults.config "ports") "cmd"
               ?? Some (JNum 1338))
              5000 (("launch " +:+ template (field (store w) defaults.config "id"))
                    +:+ String "010"%char EmptyString);
            Del ".temp"]
    /\ (FtpClose ∈ added <-> (7 <= k)%nat)
    /\ last added = Some (Rejected "deployPipeAsync" e).
Proof.
  intros Hip Hk Hok Hfail Hturns.
  do 12 (destruct turns as [|turns]; [lia|]). clear Hturns.
  destruct w as [h t]. change (store (State h t)) with h in *.
  change (trace (State h t)) with t.
  do 9 (destruct k as [|k];
        [ evaluate_run Hip Hok Hfail; split_trace;
          (split; [done|]); (split; [reflexivity|]);
          (split; [|reflexivity]);
          rewrite FtpClose_elem_of; cbn [existsb orb];
          (split; [first [ intros _; lia | discriminate ]
                  | first [ intros _; reflexivity | lia ]]) |]).
  lia.
Qed.

End DeviceFacts.

(** ** The gulp tasks *)

Section TaskFacts.

Context (E : Env) (O : nat -> io -> option exn).

(** X15. A task whose constructor throws is rejected with what the constructor
    threw, and starts nothing. *)
Theorem tasks_reject_with_constructor_error (s s1 : state) (e : exn) (turns : nat) :
  new_VitaProject E None s = (inl e, s1) ->
  run_async O turns "default" (task_default E) s
    = Machine (State (store s1) (trace s1 ++ [Rejected "default" e])) [] [] 0
  /\ run_async O turns "build" (task_build E) s
    = Machine (State (store s1) (trace s1 ++ [Rejected "build" e])) [] [] 0
  /\ run_async O turns "test:cmd" (task_test_cmd E) s
    = Machine (State (store s1) (trace s1 ++ [Rejected "test:cmd" e])) [] [] 0
  /\ run_async O turns "deploy" (task_deploy E) s
    = Machine (State (store s1) (trace s1 ++ [Rejected "deploy" e])) [] [] 0.
Proof.
  intros Hnew.
  unfold run_async, start, task_default, task_build, task_test_cmd, task_deploy.
  cbn [exec world]. rewrite Hnew. cbn.
  rewrite !loop_idle by done. done.
Qed.

(** X16. The [build] task awaits nothing: it settles in the call that starts
    it, fulfilled when [build] returned its pipeline and rejected with what
    [build] threw. *)
Theorem task_build_settles_at_once (s s1 : state) (this : VitaProject) (turns : nat) :
  new_VitaProject E None s = (inr this, s1) ->
  run_async O turns "build" (task_build E) s
  = match build E this s1 with
    | (inl e, s2) =>
        Machine (State (store s2) (trace s2 ++ [Rejected "build" e])) [] [] 0
    | (inr _, s2) =>
        Machine (State (store s2) (trace s2 ++ [Fulfilled "build"])) [] [] 0
    end.
Proof.
  intros Hnew. unfold run_async, start, task_build.
  cbn [exec world]. rewrite Hnew. cbn [exec world].
  destruct (build E this s1) as [[e|p] s2]; cbn; by rewrite loop_idle.
Qed.

(** X17. When every operation succeeds, [test:cmd] sends the launch command,
    waits two seconds, sends [destroy], and is fulfilled only then. *)
Theorem task_test_cmd_success (s s1 : state) (this : VitaProject) (turns : nat) :
  new_VitaProject E None s = (inr this, s1) ->
  nullish (field (store s1) defaults.config "ip") = false ->
  (forall i op, O i op = None) ->
  (6 <= turns)%nat ->
  exists added,
    trace (world (run_async O turns "test:cmd" (task_test_cmd E) s)) = trace s1 ++ added
    /\ idle (run_async O turns "test:cmd" (task_test_cmd E) s)
    /\ started added
       = [NetcatSend (field (store s1) defaults.config "ip")
            (opt_prop (field (store s1) defaults.config "ports") "cmd" ?? Some (JNum 1338))
            5000 (("launch " +:+ template (field (store s1) defaults.config "id"))
                  +:+ String "010"%char EmptyString);
          SetTimeout 2000;
          NetcatSend (field (store s1) defaults.config "ip")
            (opt_prop (field (store s1) defaults.config "ports") "cmd" ?? Some (JNum 1338))
            5000 ("destroy" +:+ String "010"%char EmptyString)]
    /\ last added = Some (Fulfilled "test:cmd").
Proof.
  intros Hnew Hip Hok Hturns.
  destruct (new_VitaProject_ok_inv E None s s1 this Hnew) as (Hc & _).
  destruct this as [c]. cbn in Hc. subst c.
  do 6 (destruct turns as [|turns]; [lia|]). clear Hturns.
  destruct s1 as [h t]. change (store (State h t)) with h in *.
  change (trace (State h t)) with t.
  evaluate_run Hip Hok Hnew. split_trace.
  repeat split; reflexivity.
Qed.

(** X18. With no device address the [deploy] task is fulfilled all the same:
    the rejection of [deployPipeAsync] comes afterwards and reaches no
    one. *)
Theorem task_deploy_hides_failure (s s1 : state) (this : VitaProject) (turns : nat) :
  new_VitaProject E None s = (inr this, s1) ->
  nullish (field (store s1) defaults.config "ip") = true ->
  (forall op, O 0%nat op = None) ->
  (3 <= turns)%nat ->
  idle (run_async O turns "deploy" (task_deploy E) s)
  /\ trace (world (run_async O turns "deploy" (task_deploy E) s))
     = trace s1
       ++ [Log "Processing system and additional files.";
           Log "Bundling source files.";
           Log "Bundling project files to temp directory.";
           IoStart (StreamEnd
                      (pipe (processPipe
                               (src [template (field (store s1) defaults.config "srcDir")
                                     +:+ "/**/*"]))
                            (dest ".temp")));
           Fulfilled "deployAsync";
           Fulfilled "deploy";
           IoDone (StreamEnd
                     (pipe (processPipe
                              (src [template (field (store s1) defaults.config "srcDir")
                                    +:+ "/**/*"]))
                           (dest ".temp")));
           Log "Files bundled.";
           Log "Closing applications just in case.";
           Rejected "sendCmdAsync" (Thrown errors.ipIsNotDefined);
           Rejected "deployPipeAsync" (Thrown errors.ipIsNotDefined)].
Proof.
  intros Hnew Hip Hok Hturns.
  destruct (new_VitaProject_ok_inv E None s s1 this Hnew) as (Hc & _).
  destruct this as [c]. cbn in Hc. subst c.
  do 3 (destruct turns as [|turns]; [lia|]). clear Hturns.
  destruct s1 as [h t]. change (store (State h t)) with h in *.
  change (trace (State h t)) with t.
  assert (Hok' : forall i op, (i < 1)%nat -> O i op = None).
  { intros i op Hi. replace i with 0%nat by lia. apply Hok. }
  evaluate_run Hip Hok' Hnew.
  split; [done|]. rewrite <- !app_assoc. reflexivity.
Qed.

End TaskFacts.

(** ** The image filter *)

Lemma interleave_filter {A} (P : A -> Prop) `{!forall x, Decision (P x)}
    (xs ys zs : list A) :
  interleave xs ys zs ->
  interleave (base.filter P xs) (base.filter P ys) (base.filter P zs).
Proof.
  induction 1 as [| x xs ys zs _ IH | y xs ys zs _ IH]; [constructor| |].
  - rewrite !(filter_cons _ x). destruct (decide (P x)); [by constructor | done].
  - rewrite !(filter_cons _ y). destruct (decide (P y)); [by constructor | done].
Qed.

Section StreamMore.

Context (E : Env).

Lemma recompress_same_path (f : file) : path (recompress E f) = path f.
Proof.
  unfold path. by destruct (recompress_path E f) as [-> ->].
Qed.

(** X20. [processPipe] neither drops nor adds a file: the paths that come out
    are the paths that went in, and the files that the filter does not
    match come out in the order in which they went in. *)
Theorem processPipe_keeps_files (globs : list string) (out : list file * list file) :
  flows E (processPipe (src globs)) out ->
  path <$> out.1 ≡ₚ path <$> glob E globs
  /\ base.filter (fun f => Glob.matches ["**/*.{bmp,png,jpg}"] (path f) ≠ true) out.1
     = base.filter (fun f => Glob.matches ["**/*.{bmp,png,jpg}"] (path f) ≠ true)
                   (glob E globs).
Proof.
  intros H.
  apply processPipe_flows in H as (xs & held & Hsrc & _ & Hout).
  inversion Hsrc; subst; clear Hsrc. cbn [app] in Hout.
  set (P := fun f : file => Glob.matches ["**/*.{bmp,png,jpg}"] (path f) = true) in *.
  set (N := fun f : file => Glob.matches ["**/*.{bmp,png,jpg}"] (path f) ≠ true) in *.
  split.
  - rewrite (interleave_Permutation _ _ _ Hout).
    rewrite fmap_app, <- list_fmap_compose.
    rewrite (list_fmap_ext (path ∘ recompress E) path)
      by (intros; apply recompress_same_path).
    rewrite <- fmap_app. apply fmap_Permutation, (filter_app_complement P).
  - apply (interleave_filter N) in Hout.
    assert (Himg : base.filter N (recompress E <$> base.filter P (glob E globs)) = []).
    { clear Hout. induction (glob E globs) as [|x xs IH]; [done|].
      rewrite (filter_cons P). destruct (decide (P x)) as [Hx|Hx]; [|exact IH].
      rewrite fmap_cons, filter_cons_False; [exact IH|].
      unfold N. rewrite recompress_same_path. by intros []. }
    rewrite Himg in Hout. apply interleave_nil_l in Hout. rewrite Hout.
    apply list_filter_filter_l. done.
Qed.

End StreamMore.

(** ** The further properties on the sample project *)

Lemma readConfiguration_missing_file_witness :
  readConfiguration Sample.env "missing.json" Sample.loaded
  = (inl (Thrown errors.projectConfigFileIsMissing),
     State initial_heap [Log "Reading configuration..."; Exists "missing.json" false]).
Proof.
  apply (readConfiguration_missing_file Sample.env "missing.json" Sample.loaded).
  reflexivity.
Defined.

Lemma readConfiguration_unreadable_witness :
  (readConfiguration Sample.env "src/" Sample.loaded).1 = inl (LibraryError "ENOENT")
  /\ store (readConfiguration Sample.env "src/" Sample.loaded).2 = initial_heap.
Proof.
  apply (readConfiguration_unreadable Sample.env "src/" Sample.loaded
           (LibraryError "ENOENT")).
  - reflexivity.
  - left. reflexivity.
Defined.

Lemma readConfiguration_twice_witness :
  exists s1 s2,
    readConfiguration (Sample.env_with Sample.descriptor_proto)
      "./lpp-vita-project.json" Sample.loaded
      = (inr defaults.config, s1)
    /\ readConfiguration (Sample.env_with Sample.descriptor_proto)
         "./lpp-vita-project.json" s1
       = (inr defaults.config, s2)
    /\ store s2 = store s1.
Proof.
  apply (readConfiguration_twice (Sample.env_with Sample.descriptor_proto)
           "./lpp-vita-project.json" Sample.descriptor_text Sample.descriptor_proto
           Sample.loaded).
  - reflexivity.
  - reflexivity.
  - reflexivity.
  - vm_compute. reflexivity.
Defined.

Lemma new_VitaProject_valid_witness :
  configuration Sample.project = defaults.config
  /\ nullish (Some (JStr "TESTGAME1")) = false
  /\ opt_prop (Some (JStr "TESTGAME1")) "length" = Some (JNum 9)
  /\ nullish (Some (JStr "Test Game")) = false
  /\ existsSync Sample.env "src/" = true
  /\ existsSync Sample.env "src/eboot.bin" = true
  /\ existsSync Sample.env "src/index.lua" = true.
Proof.
  apply (new_VitaProject_valid Sample.env None Sample.loaded
           (new_VitaProject Sample.env None Sample.loaded).2 Sample.project).
  reflexivity.
Defined.

Lemma new_VitaProject_invalid_witness :
  (exists e, (new_VitaProject (Sample.env_with Sample.descriptor_short_id) None
                Sample.loaded).1 = inl (Thrown e))
  /\ lookup_object (store (new_VitaProject (Sample.env_with Sample.descriptor_short_id) None
                             Sample.loaded).2) defaults.config
     = assign_all (lookup_object (store Sample.loaded) defaults.config)
         {[ "id" := JStr "SHORT" ]}
  /\ (forall k v, k ≠ "__proto__" ->
        ({[ "id" := JStr "SHORT" ]} : jsobj) !! k = Some v ->
        deref (store (new_VitaProject (Sample.env_with Sample.descriptor_short_id) None
                        Sample.loaded).2) defaults.config !! k = Some v)
  /\ checked (trace (new_VitaProject (Sample.env_with Sample.descriptor_short_id) None
                       Sample.loaded).2)
     = checked (trace Sample.loaded) ++ ["./lpp-vita-project.json"].
Proof.
  apply (new_VitaProject_invalid (Sample.env_with Sample.descriptor_short_id) None
           Sample.descriptor_text {[ "id" := JStr "SHORT" ]} Sample.loaded).
  - reflexivity.
  - reflexivity.
  - reflexivity.
  - right. left. vm_compute. discriminate.
Defined.

Lemma new_VitaProject_empty_descriptor_witness :
  exists s',
    new_VitaProject (Sample.env_with JNull) None Sample.loaded
      = (inr {| configuration := defaults.config |}, s')
    /\ deref (store s') defaults.config = defaults.config_literal.
Proof.
  apply (new_VitaProject_empty_descriptor (Sample.env_with JNull)
           Sample.descriptor_text JNull Sample.loaded);
    reflexivity.
Defined.

Lemma build_tool_failure_witness :
  (build Sample.env_tool_fails Sample.project Sample.loaded).1
  = inl (LibraryError "vita-mksfoex: not found").
Proof.
  rewrite (build_tool_failure Sample.env_tool_fails Sample.project Sample.loaded
             (LibraryError "vita-mksfoex: not found")).
  - reflexivity.
  - reflexivity.
Defined.

Lemma build_without_outDir_witness :
  exists origin,
    (build Sample.env {| configuration := defaults.config |} Sample.null_outDir).1
      = inl (LibraryError origin)
    /\ Exec (mksfoex_command (Some (JStr "HELLOWRLD")) (Some (JStr "Hello World"))
                             "/tmp/param.sfo")
       ∈ trace (build Sample.env {| configuration := defaults.config |}
                  Sample.null_outDir).2.
Proof.
  apply (build_without_outDir Sample.env Sample.null_outDir); reflexivity.
Defined.

Lemma sendCmdAsync_sends_once_witness :
  idle (run_async Sample.all_succeed 3 "sendCmdAsync"
          (sendCmdAsync {| configuration := defaults.config |} "destroy") Sample.with_ip)
  /\ trace (world (run_async Sample.all_succeed 3 "sendCmdAsync"
                     (sendCmdAsync {| configuration := defaults.config |} "destroy")
                     Sample.with_ip))
     = [IoStart (NetcatSend (Some (JStr "192.168.1.20")) (Some (JNum 1338)) 5000
                   ("destroy" +:+ String "010"%char EmptyString));
        IoDone (NetcatSend (Some (JStr "192.168.1.20")) (Some (JNum 1338)) 5000
                  ("destroy" +:+ String "010"%char EmptyString));
        Fulfilled "sendCmdAsync"].
Proof.
  apply (sendCmdAsync_sends_once Sample.all_succeed "destroy" Sample.with_ip 3).
  - reflexivity.
  - lia.
Defined.

Lemma deployPipeAsync_success_witness :
  exists added,
    trace (world (run_async Sample.all_succeed 12 "deployPipeAsync"
                    (deployPipeAsync {| configuration := defaults.config |}
                       (src ["src/**/*"])) Sample.with_ip))
      = added
    /\ idle (run_async Sample.all_succeed 12 "deployPipeAsync"
               (deployPipeAsync {| configuration := defaults.config |}
                  (src ["src/**/*"])) Sample.with_ip)
    /\ actions added
       = [IoStart (StreamEnd (pipe (src ["src/**/*"]) (dest ".temp")));
          IoStart (NetcatSend (Some (JStr "192.168.1.20")) (Some (JNum 1338)) 5000
                     ("destroy" +:+ String "010"%char EmptyString));
          IoStart (FtpAccess (Some (JStr "192.168.1.20")) (Some (JNum 1337)));
          IoStart (FtpCd (Some (JStr "ux0:")));
          IoStart (FtpCd (Some (JStr "app")));
          IoStart (FtpCd (Some (JStr "TESTGAME1")));
          IoStart (FtpUploadFromDir ".temp");
          FtpClose;
          IoStart (NetcatSend (Some (JStr "192.168.1.20")) (Some (JNum 1338)) 5000
                     ("launch TESTGAME1" +:+ String "010"%char EmptyString));
          IoStart (Del ".temp")]
    /\ last added = Some (Fulfilled "deployPipeAsync").
Proof.
  apply (deployPipeAsync_success Sample.all_succeed (src ["src/**/*"]) Sample.with_ip 12).
  - reflexivity.
  - reflexivity.
  - lia.
Defined.

Lemma deployPipeAsync_aborts_witness :
  exists added,
    trace (world (run_async Sample.upload_fails 12 "deployPipeAsync"
                    (deployPipeAsync {| configuration := defaults.config |}
                       (src ["src/**/*"])) Sample.with_ip))
      = added
    /\ idle (run_async Sample.upload_fails 12 "deployPipeAsync"
               (deployPipeAsync {| configuration := defaults.config |}
                  (src ["src/**/*"])) Sample.with_ip)
    /\ started added
       = [StreamEnd (pipe (src ["src/**/*"]) (dest ".temp"));
          NetcatSend (Some (JStr "192.168.1.20")) (Some (JNum 1338)) 5000
            ("destroy" +:+ String "010"%char EmptyString);
          FtpAccess (Some (JStr "192.168.1.20")) (Some (JNum 1337));
          FtpCd (Some (JStr "ux0:"));
          FtpCd (Some (JStr "app"));
          FtpCd (Some (JStr "TESTGAME1"));
          FtpUploadFromDir ".temp"]
    /\ (FtpClose ∈ added <-> (7 <= 6)%nat)
    /\ last added = Some (Rejected "deployPipeAsync" (LibraryError "426 Connection closed")).
Proof.
  apply (deployPipeAsync_aborts Sample.upload_fails (src ["src/**/*"]) Sample.with_ip 6
           (LibraryError "426 Connection closed") 12).
  - reflexivity.
  - lia.
  - intros i op Hi. unfold Sample.upload_fails.
    destruct (Nat.eqb_spec i 6); [lia | reflexivity].
  - intros op. reflexivity.
  - lia.
Defined.

Lemma tasks_reject_with_constructor_error_witness :
  run_async Sample.all_succeed 5 "default"
    (task_default (Sample.env_with Sample.descriptor_short_id)) Sample.loaded
  = Machine (State (store (new_VitaProject (Sample.env_with Sample.descriptor_short_id)
                             None Sample.loaded).2)
                   (trace (new_VitaProject (Sample.env_with Sample.descriptor_short_id)
                             None Sample.loaded).2
                    ++ [Rejected "default" (Thrown errors.idDoesNotConformRequirements)]))
            [] [] 0
  /\ run_async Sample.all_succeed 5 "build"
       (task_build (Sample.env_with Sample.descriptor_short_id)) Sample.loaded
     = Machine (State (store (new_VitaProject (Sample.env_with Sample.descriptor_short_id)
                                None Sample.loaded).2)
                      (trace (new_VitaProject (Sample.env_with Sample.descriptor_short_id)
                                None Sample.loaded).2
                       ++ [Rejected "build" (Thrown errors.idDoesNotConformRequirements)]))
               [] [] 0
  /\ run_async Sample.all_succeed 5 "test:cmd"
       (task_test_cmd (Sample.env_with Sample.descriptor_short_id)) Sample.loaded
     = Machine (State (store (new_VitaProject (Sample.env_with Sample.descriptor_short_id)
                                None Sample.loaded).2)
                      (trace (new_VitaProject (Sample.env_with Sample.descriptor_short_id)
                                None Sample.loaded).2
                       ++ [Rejected "test:cmd" (Thrown errors.idDoesNotConformRequirements)]))
               [] [] 0
  /\ run_async Sample.all_succeed 5 "deploy"
       (task_deploy (Sample.env_with Sample.descriptor_short_id)) Sample.loaded
     = Machine (State (store (new_VitaProject (Sample.env_with Sample.descriptor_short_id)
                                None Sample.loaded).2)
                      (trace (new_VitaProject (Sample.env_with Sample.descriptor_short_id)
                                None Sample.loaded).2
                       ++ [Rejected "deploy" (Thrown errors.idDoesNotConformRequirements)]))
               [] [] 0.
Proof.
  apply (tasks_reject_with_constructor_error
           (Sample.env_with Sample.descriptor_short_id) Sample.all_succeed
           Sample.loaded
           (new_VitaProject (Sample.env_with Sample.descriptor_short_id) None
              Sample.loaded).2
           (Thrown errors.idDoesNotConformRequirements) 5).
  reflexivity.
Defined.

Lemma task_build_settles_at_once_witness :
  idle (run_async Sample.all_succeed 5 "build" (task_build Sample.env) Sample.loaded)
  /\ last (trace (world (run_async Sample.all_succeed 5 "build" (task_build Sample.env)
                           Sample.loaded)))
     = Some (Fulfilled "build").
Proof.
  rewrite (task_build_settles_at_once Sample.env Sample.all_succeed Sample.loaded
             (new_VitaProject Sample.env None Sample.loaded).2 Sample.project 5).
  - split; [split; reflexivity | reflexivity].
  - reflexivity.
Defined.

Lemma task_test_cmd_success_witness :
  exists added,
    trace (world (run_async Sample.all_succeed 6 "test:cmd"
                    (task_test_cmd (Sample.env_with Sample.descriptor_with_ip))
                    Sample.loaded))
      = trace (new_VitaProject (Sample.env_with Sample.descriptor_with_ip) None
                 Sample.loaded).2 ++ added
    /\ idle (run_async Sample.all_succeed 6 "test:cmd"
               (task_test_cmd (Sample.env_with Sample.descriptor_with_ip)) Sample.loaded)
    /\ started added
       = [NetcatSend (Some (JStr "192.168.1.20")) (Some (JNum 1338)) 5000
            ("launch TESTGAME1" +:+ String "010"%char EmptyString);
          SetTimeout 2000;
          NetcatSend (Some (JStr "192.168.1.20")) (Some (JNum 1338)) 5000
            ("destroy" +:+ String "010"%char EmptyString)]
    /\ last added = Some (Fulfilled "test:cmd").
Proof.
  apply (task_test_cmd_success (Sample.env_with Sample.descriptor_with_ip)
           Sample.all_succeed Sample.loaded
           (new_VitaProject (Sample.env_with Sample.descriptor_with_ip) None
              Sample.loaded).2
           Sample.project 6).
  - reflexivity.
  - reflexivity.
  - reflexivity.
  - lia.
Defined.

Lemma task_deploy_hides_failure_witness :
  idle (run_async Sample.all_succeed 3 "deploy" (task_deploy Sample.env) Sample.loaded)
  /\ last (trace (world (run_async Sample.all_succeed 3 "deploy" (task_deploy Sample.env)
                           Sample.loaded)))
     = Some (Rejected "deployPipeAsync" (Thrown errors.ipIsNotDefined))
  /\ Fulfilled "deploy"
     ∈ trace (world (run_async Sample.all_succeed 3 "deploy" (task_deploy Sample.env)
                       Sample.loaded)).
Proof.
  destruct (task_deploy_hides_failure Sample.env Sample.all_succeed Sample.loaded
              (new_VitaProject Sample.env None Sample.loaded).2 Sample.project 3
              eq_refl eq_refl (fun _ => eq_refl)) as [Hidle Htrace]; [lia|].
  split; [exact Hidle|]. rewrite Htrace. split; [reflexivity|].
  apply elem_of_app. right. repeat constructor.
Defined.

Lemma processPipe_keeps_files_witness :
  path <$> (run Sample.env (processPipe (src ["src/**/*"]))).1
    ≡ₚ ["src/eboot.bin"; "src/index.lua"; "src/img/logo.png"]
  /\ base.filter (fun f => Glob.matches ["**/*.{bmp,png,jpg}"] (path f) ≠ true)
       (run Sample.env (processPipe (src ["src/**/*"]))).1
     = base.filter (fun f => Glob.matches ["**/*.{bmp,png,jpg}"] (path f) ≠ true)
         [Sample.eboot; Sample.index; Sample.logo].
Proof.
  apply (processPipe_keeps_files Sample.env ["src/**/*"]
           (run Sample.env (processPipe (src ["src/**/*"])))).
  unfold processPipe.
  repeat first [ eapply flows_pipe | apply flows_src ]; cbn; try constructor.
  apply interleave_app.
Defined.
